(** * zip-it-and-ship-it: bundler selection, fallback and listing

    A shallow embedding of [src/runtimes/node/index.js] (the Node.js runtime:
    default bundler, packaging with fallback, source-file listing) and of
    [src/main.ts] (the listing entry points), with the properties of the
    bundler orchestrator stated over it. The archive assembler, which is
    not among the sources at hand, is modelled from the specification.

    Asynchronous functions are modelled in a state-and-exception monad: the
    state holds the file system and a log of the calls made to the external
    collaborators (file copy, the two bundling engines, the source lister),
    a rejected promise is a thrown error. *)

From Stdlib Require Import String Ascii List ZArith Bool.
From stdpp Require Import base gmap strings list sorting.
Import ListNotations.
Open Scope string_scope.

(** ** JavaScript data *)

(** [Config]: the per-function configuration object. Only [nodeBundler] and
    [schedule] are read by the modelled code; every other key travels along
    unchanged in [otherSettings]. A missing key is [None] ([undefined]). *)
Record Config := mkConfig {
  nodeBundler : option string;
  schedule : option string;
  otherSettings : list (string * string)
}.

(** [{}] *)
Definition emptyConfig : Config :=
  {| nodeBundler := None; schedule := None; otherSettings := [] |}.

(** [{ ...config, nodeBundler: b }] *)
Definition withNodeBundler (config : Config) (b : string) : Config :=
  {| nodeBundler := Some b;
     schedule := schedule config;
     otherSettings := otherSettings config |}.

(** The values stored in the objects the packaging functions return. *)
Inductive JsValue :=
| JsUndefined
| JsString (s : string)
| JsStrings (l : list string)
| JsConfig (c : Config).

(** A thrown value: an [Error] whose optional [errors] property carries the
    structured sub-errors of the bundling engine. *)
Record JsError := mkJsError {
  message : string;
  errors : JsValue
}.

(** [fs.Stats], opaque to the modelled code. *)
Record Stats := mkStats { isDirectory : bool }.

(** Modelled from the spec: the constants of [utils/consts], a file that is
    not among the sources at hand, one per bundler strategy of the spec
    (delegated engine, composite, Graph Builder). The strings are the names
    the comments of [index.js] give to the two engines; the properties below
    use only that the three are non-empty and pairwise distinct. *)
Definition JS_BUNDLER_ESBUILD : string := "esbuild".
Definition JS_BUNDLER_ESBUILD_ZISI : string := "esbuild_zisi".
Definition JS_BUNDLER_ZISI : string := "zisi".
Definition RUNTIME_JS : string := "js".

(** [a !== b] where [a] is an optional string and [b] a string. *)
Definition js_strict_ne (a : option string) (b : string) : bool :=
  match a with
  | Some s => negb (String.eqb s b)
  | None => true
  end.

(** ** Arguments of the external collaborators *)

(** The object [zipFunction] hands to [zipZisi] (no [name]). *)
Record ZisiArgs := mkZisiArgs {
  za_archiveFormat : string;
  za_basePath : option string;
  za_config : Config;
  za_destFolder : string;
  za_extension : string;
  za_filename : string;
  za_mainFile : string;
  za_pluginsModulesPath : option string;
  za_srcDir : string;
  za_srcPath : string;
  za_stat : Stats
}.

(** The object [zipFunction] hands to [zipEsbuild]. *)
Record EsbuildArgs := mkEsbuildArgs {
  ea_archiveFormat : string;
  ea_basePath : option string;
  ea_config : Config;
  ea_destFolder : string;
  ea_extension : string;
  ea_filename : string;
  ea_mainFile : string;
  ea_name : string;
  ea_pluginsModulesPath : option string;
  ea_srcDir : string;
  ea_srcPath : string;
  ea_stat : Stats
}.

(** The parameters a runtime's [getSrcFiles] receives from [main.ts]: the
    fields of the function merged with the listing options. The runtime
    object itself is passed along too; it is represented by its name. *)
Record SrcFilesParams := mkSrcFilesParams {
  sp_basePath : option string;
  sp_config : option Config;
  sp_extension : string;
  sp_featureFlags : list (string * bool);
  sp_filename : string;
  sp_mainFile : string;
  sp_name : string;
  sp_runtimeName : string;
  sp_srcDir : string;
  sp_srcPath : string;
  sp_stat : Stats
}.

(** [{ ...parameters, bundler }], the argument of [src_files.getSrcFiles]. *)
Record SrcFilesArgs := mkSrcFilesArgs {
  sa_parameters : SrcFilesParams;
  sa_bundler : string
}.

(** ** State, failures and the monad of asynchronous functions *)

Inductive Event :=
| EvCpFile (src dst : string)
| EvZipZisi (a : ZisiArgs)
| EvZipEsbuild (a : EsbuildArgs)
| EvSrcFiles (a : SrcFilesArgs).

Abbreviation FileSystem := (gmap string (list Byte.byte)).

Record State := mkState {
  files : FileSystem;
  trace : list Event
}.

Inductive Result (A : Type) :=
| Ok (a : A)
| Throw (e : JsError).
Arguments Ok {A} a.
Arguments Throw {A} e.

Definition M (A : Type) : Type := State -> State * Result A.

Definition ret {A} (a : A) : M A := fun st => (st, Ok a).

Definition throw {A} (e : JsError) : M A := fun st => (st, Throw e).

Definition bind {A B} (m : M A) (k : A -> M B) : M B :=
  fun st =>
    match m st with
    | (st', Ok a) => k a st'
    | (st', Throw e) => (st', Throw e)
    end.

(** [try { m } catch (e) { h e }] *)
Definition try_catch {A} (m : M A) (h : JsError -> M A) : M A :=
  fun st =>
    match m st with
    | (st', Ok a) => (st', Ok a)
    | (st', Throw e) => h e st'
    end.

Declare Scope js_scope.
Delimit Scope js_scope with js.
Notation "x <- m ;; k" := (bind m (fun x => k))
  (at level 100, m at next level, right associativity) : js_scope.
Open Scope js_scope.

(** Run an external call that transforms the file system, and log it. *)
Definition external {A} (ev : Event)
    (f : FileSystem -> FileSystem * Result A) : M A :=
  fun st =>
    let '(fs', r) := f (files st) in
    ({| files := fs'; trace := trace st ++ [ev] |}, r).

(** Read the file system without changing it. A read is not entered in the
    log: the log holds the copies, the engine calls and the lister calls. *)
Definition inspect {A} (f : FileSystem -> A) : M A :=
  fun st => (st, Ok (f (files st))).

(** [a || (await b)] where [a] is an optional string: [undefined] and the
    empty string are falsy, and [b] runs only then. *)
Definition js_or_else (a : option string) (b : M string) : M string :=
  match a with
  | Some s => if String.eqb s EmptyString then b else ret s
  | None => b
  end.

(** The object a packaging function resolves to. *)
Abbreviation ZipResult := (gmap string JsValue).

(** ** External collaborators of the Node.js runtime

    [detect_es_module], [zip_zisi], [zip_esbuild] and [src_files] are
    modules of the repository that [index.js] only calls; [path.join] is
    Node's. They are taken as they are used: a probe of the entry file that
    reads the file system, two engines that transform it and may reject,
    a lister that reads it and may reject. *)
Class NodeCollaborators := {
  detectEsModule : FileSystem -> option string -> bool;
  zipZisi : ZisiArgs -> FileSystem -> FileSystem * Result ZipResult;
  zipEsbuild : EsbuildArgs -> FileSystem -> FileSystem * Result ZipResult;
  src_files_getSrcFiles : SrcFilesArgs -> FileSystem -> Result (list string);
  join : string -> string -> string
}.

(** [cp-file]: copies the bytes of [src] to [dst], creating or overwriting
    it, and rejects when [src] cannot be read. *)
Definition cpFile (src dst : string) : M unit :=
  external (EvCpFile src dst)
    (fun fs =>
       match fs !! src with
       | Some bytes => (<[dst := bytes]> fs, Ok tt)
       | None =>
           (fs, Throw {| message := "Cannot read from " ++ src;
                         errors := JsUndefined |})
       end).

(** The destructured parameter of [zipFunction] and of
    [zipWithFunctionWithFallback]; [zp_config] is [None] when the caller
    passes no [config]. *)
Record ZipParams := mkZipParams {
  zp_archiveFormat : string;
  zp_basePath : option string;
  zp_config : option Config;
  zp_destFolder : string;
  zp_extension : string;
  zp_filename : string;
  zp_mainFile : string;
  zp_name : string;
  zp_pluginsModulesPath : option string;
  zp_srcDir : string;
  zp_srcPath : string;
  zp_stat : Stats
}.

(** [{ ...parameters, config }] *)
Definition withConfig (p : ZipParams) (config : Config) : ZipParams :=
  {| zp_archiveFormat := zp_archiveFormat p;
     zp_basePath := zp_basePath p;
     zp_config := Some config;
     zp_destFolder := zp_destFolder p;
     zp_extension := zp_extension p;
     zp_filename := zp_filename p;
     zp_mainFile := zp_mainFile p;
     zp_name := zp_name p;
     zp_pluginsModulesPath := zp_pluginsModulesPath p;
     zp_srcDir := zp_srcDir p;
     zp_srcPath := zp_srcPath p;
     zp_stat := zp_stat p |}.

Definition zisiArgs (p : ZipParams) (config : Config) : ZisiArgs :=
  {| za_archiveFormat := zp_archiveFormat p;
     za_basePath := zp_basePath p;
     za_config := config;
     za_destFolder := zp_destFolder p;
     za_extension := zp_extension p;
     za_filename := zp_filename p;
     za_mainFile := zp_mainFile p;
     za_pluginsModulesPath := zp_pluginsModulesPath p;
     za_srcDir := zp_srcDir p;
     za_srcPath := zp_srcPath p;
     za_stat := zp_stat p |}.

Definition esbuildArgs (p : ZipParams) (config : Config) : EsbuildArgs :=
  {| ea_archiveFormat := zp_archiveFormat p;
     ea_basePath := zp_basePath p;
     ea_config := config;
     ea_destFolder := zp_destFolder p;
     ea_extension := zp_extension p;
     ea_filename := zp_filename p;
     ea_mainFile := zp_mainFile p;
     ea_name := zp_name p;
     ea_pluginsModulesPath := zp_pluginsModulesPath p;
     ea_srcDir := zp_srcDir p;
     ea_srcPath := zp_srcPath p;
     ea_stat := zp_stat p |}.

(** ** [src/runtimes/node/index.js] *)
Module NodeRuntime.
Section WithCollaborators.
Context `{NodeCollaborators}.

(** [getDefaultBundler({ extension, mainFile })]; [mainFile] is [None]
    when the caller leaves it out. *)
Definition getDefaultBundler (extension : string) (mainFile : option string)
    : M string :=
  if String.eqb extension ".ts" then ret JS_BUNDLER_ESBUILD
  else
    isEsModule <- inspect (fun fs => detectEsModule fs mainFile) ;;
    if (isEsModule : bool) then ret JS_BUNDLER_ESBUILD
    else ret JS_BUNDLER_ZISI.

(** The [bundler] constant of [getSrcFilesWithBundler]:
    [parameters.config.nodeBundler ||
     (await getDefaultBundler({ extension: parameters.extension }))]. *)
Definition srcFilesBundler (config : Config) (parameters : SrcFilesParams)
    : M string :=
  js_or_else (nodeBundler config)
    (getDefaultBundler (sp_extension parameters) None).

(** Reading [parameters.config.nodeBundler] with no [config] throws. *)
Definition getSrcFilesWithBundler (parameters : SrcFilesParams)
    : M (list string) :=
  match sp_config parameters with
  | None =>
      throw {| message := "Cannot read property 'nodeBundler' of undefined";
               errors := JsUndefined |}
  | Some config =>
      bundler <- srcFilesBundler config parameters ;;
      let args := {| sa_parameters := parameters; sa_bundler := bundler |} in
      external (EvSrcFiles args)
        (fun fs => (fs, src_files_getSrcFiles args fs))
  end.

(** The [bundler] constant of [zipFunction]:
    [config.nodeBundler || (await getDefaultBundler({ extension, mainFile }))]. *)
Definition zipBundler (config : Config) (p : ZipParams) : M string :=
  js_or_else (nodeBundler config)
    (getDefaultBundler (zp_extension p) (Some (zp_mainFile p))).

Definition zipFunction (p : ZipParams) : M ZipResult :=
  let config := default emptyConfig (zp_config p) in
  bundler <- zipBundler config p ;;
  if String.eqb (zp_extension p) ".zip" then
    let destPath := join (zp_destFolder p) (zp_filename p) in
    copied <- cpFile (zp_srcPath p) destPath ;;
    ret ({[ "config" := JsConfig config; "path" := JsString destPath ]}
           : ZipResult)
  else if String.eqb bundler JS_BUNDLER_ZISI then
    external (EvZipZisi (zisiArgs p config)) (zipZisi (zisiArgs p config))
  else
    external (EvZipEsbuild (esbuildArgs p config))
      (zipEsbuild (esbuildArgs p config)).

Definition zipWithFunctionWithFallback (p : ZipParams) : M ZipResult :=
  let config := default emptyConfig (zp_config p) in
  if js_strict_ne (nodeBundler config) JS_BUNDLER_ESBUILD_ZISI then
    zipFunction (withConfig p config)
  else
    try_catch
      (zipFunction (withConfig p (withNodeBundler config JS_BUNDLER_ESBUILD)))
      (fun esbuildError =>
         try_catch
           (data <- zipFunction
                      (withConfig p (withNodeBundler config JS_BUNDLER_ZISI)) ;;
            ret (<["bundlerErrors" := errors esbuildError]> data))
           (fun zisiError => throw esbuildError)).

End WithCollaborators.
End NodeRuntime.

(** ** Runtimes, as [main.ts] sees them

    A runtime has a name and may provide a source-file lister
    ([typeof getRuntimeSrcFiles !== 'function'] when it does not). *)
Record Runtime := mkRuntime {
  rt_name : string;
  rt_getSrcFiles : option (SrcFilesParams -> M (list string))
}.

(** The [name] and [getSrcFiles] entries of the [module.exports] of
    [index.js]. *)
Definition jsRuntime `{NodeCollaborators} : Runtime :=
  {| rt_name := RUNTIME_JS;
     rt_getSrcFiles := Some NodeRuntime.getSrcFilesWithBundler |}.

Abbreviation FeatureFlags := (list (string * bool)).

Record FunctionSource := mkFunctionSource {
  fn_config : Config;
  fn_extension : string;
  fn_filename : string;
  fn_mainFile : string;
  fn_name : string;
  fn_runtime : Runtime;
  fn_srcDir : string;
  fn_srcPath : string;
  fn_stat : Stats
}.

Record ListedFunction := mkListedFunction {
  lf_name : string;
  lf_mainFile : string;
  lf_runtime : string;
  lf_extension : string;
  lf_schedule : option string
}.

Record ListedFunctionFile := mkListedFunctionFile {
  lff_srcFile : string;
  lff_name : string;
  lff_mainFile : string;
  lff_runtime : string;
  lff_extension : string
}.

(** ** Node's [path.extname] (POSIX)

    The scan runs from the last character to the first, as Node's does:
    trailing separators are skipped, the scan stops at the separator that
    starts the last path component, and a component that is only dots, or
    whose only dot is its first character, has no extension. *)
Record ExtnameState := mkExtnameState {
  startDot : Z;
  startPart : Z;
  endPos : Z;
  matchedSlash : bool;
  preDotState : Z
}.

Definition extname_init : ExtnameState :=
  {| startDot := -1; startPart := 0; endPos := -1;
     matchedSlash := true; preDotState := 0 |}.

Fixpoint extname_loop (chars : list (Z * ascii)) (s : ExtnameState)
    : ExtnameState :=
  match chars with
  | [] => s
  | (i, code) :: rest =>
      if Ascii.eqb code "/" then
        if negb (matchedSlash s) then
          {| startDot := startDot s; startPart := i + 1; endPos := endPos s;
             matchedSlash := matchedSlash s; preDotState := preDotState s |}
        else extname_loop rest s
      else
        let s1 :=
          if (endPos s =? -1)%Z then
            {| startDot := startDot s; startPart := startPart s;
               endPos := i + 1; matchedSlash := false;
               preDotState := preDotState s |}
          else s in
        let s2 :=
          if Ascii.eqb code "." then
            if (startDot s1 =? -1)%Z then
              {| startDot := i; startPart := startPart s1; endPos := endPos s1;
                 matchedSlash := matchedSlash s1; preDotState := preDotState s1 |}
            else if negb (preDotState s1 =? 1)%Z then
              {| startDot := startDot s1; startPart := startPart s1;
                 endPos := endPos s1; matchedSlash := matchedSlash s1;
                 preDotState := 1 |}
            else s1
          else if negb (startDot s1 =? -1)%Z then
            {| startDot := startDot s1; startPart := startPart s1;
               endPos := endPos s1; matchedSlash := matchedSlash s1;
               preDotState := -1 |}
          else s1 in
        extname_loop rest s2
  end.

(** The characters of [path] with their indices, last first. *)
Definition indexed_from_end (path : string) : list (Z * ascii) :=
  let chars := list_ascii_of_string path in
  rev (combine (map Z.of_nat (seq 0 (length chars))) chars).

Definition extname (path : string) : string :=
  let s := extname_loop (indexed_from_end path) extname_init in
  if ((startDot s =? -1) || (endPos s =? -1) || (preDotState s =? 0)
      || ((preDotState s =? 1) && (startDot s =? endPos s - 1)
          && (startDot s =? startPart s + 1)))%Z
  then EmptyString
  else substring (Z.to_nat (startDot s)) (Z.to_nat (endPos s - startDot s)) path.

(** ** [src/main.ts] *)

(** [utils/fs], [feature_flags] and [runtimes] are modules of the repository
    that [main.ts] only calls: the directory helpers and the discovery of
    the functions read the file system and may reject. The [Map] that
    [getFunctionsFromPaths] resolves to is kept as the list of its entries
    in insertion order. *)
Class MainCollaborators := {
  getFlags : option FeatureFlags -> FeatureFlags;
  resolveFunctionsDirectories : string + list string -> list string;
  listFunctionsDirectories : list string -> FileSystem -> Result (list string);
  getFunctionsFromPaths :
    list string -> option Config -> FeatureFlags -> FileSystem ->
    Result (list (string * FunctionSource))
}.

Module Main.
Section WithCollaborators.
Context `{MainCollaborators}.

(** Lift a read of the file system that may reject. *)
Definition reading {A} (f : FileSystem -> Result A) : M A :=
  fun st => (st, f (files st)).

(** [Promise.all(l.map(f))]: [map] starts every call, whether or not
    another one rejects, and the promise resolves to the list of the values
    when all of them resolve. The calls are run here in the order of the
    list. When some reject, [Promise.all] rejects with the rejection that
    settles first; the model has no clock and takes the first one in the
    order of the list. *)
Fixpoint promise_all {A B} (f : A -> M B) (l : list A) : M (list B) :=
  match l with
  | [] => ret []
  | a :: rest =>
      fun st =>
        match f a st with
        | (st1, Ok b) =>
            match promise_all f rest st1 with
            | (st2, Ok bs) => (st2, Ok (b :: bs))
            | (st2, Throw e) => (st2, Throw e)
            end
        | (st1, Throw e) => (fst (promise_all f rest st1), Throw e)
        end
  end.

Definition getListedFunction (func : FunctionSource) : ListedFunction :=
  {| lf_name := fn_name func;
     lf_mainFile := fn_mainFile func;
     lf_runtime := rt_name (fn_runtime func);
     lf_extension := fn_extension func;
     lf_schedule := schedule (fn_config func) |}.

Definition listFunctions (relativeSrcFolders : string + list string)
    (inputFeatureFlags : option FeatureFlags) (config : option Config)
    : M (list ListedFunction) :=
  let featureFlags := getFlags inputFeatureFlags in
  let srcFolders := resolveFunctionsDirectories relativeSrcFolders in
  paths <- reading (listFunctionsDirectories srcFolders) ;;
  functions <- reading (getFunctionsFromPaths paths config featureFlags) ;;
  let listedFunctions := map getListedFunction (map snd functions) in
  ret listedFunctions.

(** [getSrcFiles({ ...func, ...options })]: the merged object is the
    function together with [basePath] and [featureFlags]. *)
Definition getSrcFiles (func : FunctionSource) (basePath : option string)
    (featureFlags : FeatureFlags) : M (list string) :=
  let getRuntimeSrcFiles := rt_getSrcFiles (fn_runtime func) in
  match String.eqb (fn_extension func) ".zip", getRuntimeSrcFiles with
  | true, _ | false, None => ret [fn_srcPath func]
  | false, Some getRuntimeSrcFiles =>
      getRuntimeSrcFiles
        {| sp_basePath := basePath;
           sp_config := Some (fn_config func);
           sp_extension := fn_extension func;
           sp_featureFlags := featureFlags;
           sp_filename := fn_filename func;
           sp_mainFile := fn_mainFile func;
           sp_name := fn_name func;
           sp_runtimeName := rt_name (fn_runtime func);
           sp_srcDir := fn_srcDir func;
           sp_srcPath := fn_srcPath func;
           sp_stat := fn_stat func |}
  end.

Definition getListedFunctionFiles (func : FunctionSource)
    (basePath : option string) (featureFlags : FeatureFlags)
    : M (list ListedFunctionFile) :=
  srcFiles <- getSrcFiles func basePath featureFlags ;;
  ret (map (fun srcFile =>
              {| lff_srcFile := srcFile;
                 lff_name := fn_name func;
                 lff_mainFile := fn_mainFile func;
                 lff_runtime := rt_name (fn_runtime func);
                 lff_extension := extname srcFile |})
           srcFiles).

Definition listFunctionsFiles (relativeSrcFolders : string + list string)
    (basePath : option string) (config : option Config)
    (inputFeatureFlags : option FeatureFlags)
    : M (list ListedFunctionFile) :=
  let featureFlags := getFlags inputFeatureFlags in
  let srcFolders := resolveFunctionsDirectories relativeSrcFolders in
  paths <- reading (listFunctionsDirectories srcFolders) ;;
  functions <- reading (getFunctionsFromPaths paths config featureFlags) ;;
  listedFunctionsFiles <-
    promise_all (fun func => getListedFunctionFiles func basePath featureFlags)
      (map snd functions) ;;
  ret (concat listedFunctionsFiles).

End WithCollaborators.
End Main.

(** ** The archive assembler *)

(** Modelled from the spec: the archive assembler ([zip_zisi], [zip_esbuild]
    and the archive writer behind them) is not among the sources at hand.
    The spec (data model and 4.5) gives it as: a pre-archived input is
    byte-copied; otherwise all output entries are sorted by path, each is
    written with its file mode preserved and a fixed modification time, and
    a compiled-binary runtime gets one more entry that names the runtime.
    The order in which a run collected the files and the wall-clock time of
    the run are inputs of the model, so that two runs can differ in them. *)
Module ArchiveAssembler.

Inductive Strategy := Passthrough | GraphBuilder | DelegatedEngine.

Inductive RuntimeKind :=
| Scripting
| CompiledBinary (id : string)
| PreZipped.

Record OutputFile := mkOutputFile {
  of_path : string;
  of_mode : N;
  of_content : list Byte.byte
}.

Record BundlingOutcome := mkBundlingOutcome {
  strategyUsed : Strategy;
  outputFiles : list OutputFile
}.

Record Entry := mkEntry {
  en_name : string;
  en_mode : N;
  en_mtime : N;
  en_bytes : list Byte.byte
}.

(** The fixed, non-varying modification time. *)
Definition FIXED_MTIME : N := 0.

(** The stable sort key. *)
Definition byPath (a b : OutputFile) : Prop :=
  String.le (of_path a) (of_path b).

#[global] Instance byPath_dec : RelDecision byPath.
Proof. intros a b. unfold byPath. apply _. Defined.

(** Modelled from the spec: one entry keeps the path, the mode and the bytes
    of the file; the time of the run is not written. *)
Definition writeEntry (now : N) (f : OutputFile) : Entry :=
  {| en_name := of_path f;
     en_mode := of_mode f;
     en_mtime := FIXED_MTIME;
     en_bytes := of_content f |}.

(** A JSON string literal (of a string that needs no escaping). *)
Definition quoted (s : string) : string :=
  String "034"%char (s ++ String "034"%char EmptyString).

(** The entry [{"runtime": "<id>"}] of a compiled-binary runtime, under
    the name the assembler is configured with. *)
Definition metadataEntries (metadataName : string) (runtime : RuntimeKind)
    : list Entry :=
  match runtime with
  | CompiledBinary id =>
      [ {| en_name := metadataName;
           en_mode := 420;
           en_mtime := FIXED_MTIME;
           en_bytes :=
             list_byte_of_string
               ("{" ++ quoted "runtime" ++ ": " ++ quoted id ++ "}") |} ]
  | Scripting | PreZipped => []
  end.

(** Modelled from the spec: the entries of the archive, sorted by path, then
    the metadata entry. *)
Definition entries (metadataName : string) (runtime : RuntimeKind)
    (now : N) (outcome : BundlingOutcome) : list Entry :=
  map (writeEntry now) (merge_sort byPath (outputFiles outcome))
    ++ metadataEntries metadataName runtime.

(** A 32-bit little-endian field. *)
Definition byte_of_N (n : N) : Byte.byte :=
  default Byte.x00 (Byte.of_N (n mod 256)).

Definition le32 (n : N) : list Byte.byte :=
  [ byte_of_N n; byte_of_N (n / 256); byte_of_N (n / 65536);
    byte_of_N (n / 16777216) ].

Definition encodeEntry (e : Entry) : list Byte.byte :=
  le32 (N.of_nat (String.length (en_name e)))
    ++ list_byte_of_string (en_name e)
    ++ le32 (en_mode e) ++ le32 (en_mtime e)
    ++ le32 (N.of_nat (length (en_bytes e))) ++ en_bytes e.

(** Modelled from the spec: [assemble], the bytes of the archive written for
    one function: a byte copy for the passthrough strategy, the encoded
    entries otherwise. *)
Definition assemble (metadataName : string) (runtime : RuntimeKind)
    (now : N) (outcome : BundlingOutcome) : list Byte.byte :=
  match strategyUsed outcome with
  | Passthrough => concat (map of_content (outputFiles outcome))
  | GraphBuilder | DelegatedEngine =>
      concat (map encodeEntry (entries metadataName runtime now outcome))
  end.

(** Two outcomes of packaging the same function: the same strategy and the
    same files, collected in any order. *)
Definition sameFunction (o1 o2 : BundlingOutcome) : Prop :=
  strategyUsed o1 = strategyUsed o2 /\
  match strategyUsed o1 with
  | Passthrough => outputFiles o1 = outputFiles o2
  | GraphBuilder | DelegatedEngine => outputFiles o1 ≡ₚ outputFiles o2
  end.

End ArchiveAssembler.

(** ** Sample collaborators, functions and disks, for running the model *)
Module Samples.

Definition joinPaths (dir file : string) : string := dir ++ "/" ++ file.

(** A probe in the manner of [detect_es_module]: no entry file, or one
    that cannot be read, is not an ES module; a readable one is when it
    opens with an [import] or [export] statement. *)
Definition opensWithModuleSyntax (fs : FileSystem) (mainFile : option string)
    : bool :=
  match mainFile with
  | None => false
  | Some path =>
      match fs !! path with
      | Some content =>
          let text := string_of_list_byte content in
          String.prefix "import " text || String.prefix "export " text
      | None => false
      end
  end.

(** A lister in the manner of [src_files]: the Graph Builder lists the
    JSON file next to the entry file, the delegated engine inlines it. *)
Definition listSources (a : SrcFilesArgs) (fs : FileSystem)
    : Result (list string) :=
  let p := sa_parameters a in
  if String.eqb (sa_bundler a) JS_BUNDLER_ZISI
  then Ok [joinPaths (sp_srcDir p) "three.json"; sp_mainFile p]
  else Ok [sp_mainFile p].

(** Engines with a fixed outcome each, leaving the disk as it is. *)
Definition engines (esbuildOutcome zisiOutcome : Result ZipResult)
    : NodeCollaborators :=
  {| detectEsModule := opensWithModuleSyntax;
     zipZisi := fun _ fs => (fs, zisiOutcome);
     zipEsbuild := fun _ fs => (fs, esbuildOutcome);
     src_files_getSrcFiles := listSources;
     join := joinPaths |}.

Definition buildFailed : JsError :=
  {| message := "Build failed with 1 error";
     errors := JsStrings ["Could not resolve left-pad"] |}.

Definition missingDependency : JsError :=
  {| message := "Cannot find module left-pad";
     errors := JsUndefined |}.

Definition esbuildArchive : ZipResult :=
  {[ "bundler" := JsString "esbuild"; "path" := JsString "dist/two.zip" ]}.

Definition zisiArchive : ZipResult :=
  {[ "bundler" := JsString "zisi"; "path" := JsString "dist/two.zip" ]}.

Definition disk : FileSystem :=
  {[ "src/two/two.js" := list_byte_of_string "module.exports = require('./three.json')";
     "src/two/three.json" := list_byte_of_string "{}";
     "src/esm.js" := list_byte_of_string "export default 1";
     "src/typed.ts" := list_byte_of_string "const handler = 1";
     "src/test.zip" := list_byte_of_string "test" ]}.

Definition start : State := {| files := disk; trace := [] |}.

Definition pinned (bundler : string) : Config :=
  {| nodeBundler := Some bundler; schedule := None; otherSettings := [] |}.

Definition params (srcDir filename extension : string)
    (config : option Config) : ZipParams :=
  {| zp_archiveFormat := "zip";
     zp_basePath := None;
     zp_config := config;
     zp_destFolder := "dist";
     zp_extension := extension;
     zp_filename := filename;
     zp_mainFile := joinPaths srcDir filename;
     zp_name := filename;
     zp_pluginsModulesPath := None;
     zp_srcDir := srcDir;
     zp_srcPath := joinPaths srcDir filename;
     zp_stat := {| isDirectory := false |} |}.

Definition listing (srcDir filename extension : string)
    (config : Config) : SrcFilesParams :=
  {| sp_basePath := None;
     sp_config := Some config;
     sp_extension := extension;
     sp_featureFlags := [];
     sp_filename := filename;
     sp_mainFile := joinPaths srcDir filename;
     sp_name := filename;
     sp_runtimeName := RUNTIME_JS;
     sp_srcDir := srcDir;
     sp_srcPath := joinPaths srcDir filename;
     sp_stat := {| isDirectory := false |} |}.

Definition goRuntime : Runtime := {| rt_name := "go"; rt_getSrcFiles := None |}.

Definition func (runtime : Runtime) (srcDir filename extension : string)
    (config : Config) : FunctionSource :=
  {| fn_config := config;
     fn_extension := extension;
     fn_filename := filename;
     fn_mainFile := joinPaths srcDir filename;
     fn_name := filename;
     fn_runtime := runtime;
     fn_srcDir := srcDir;
     fn_srcPath := joinPaths srcDir filename;
     fn_stat := {| isDirectory := false |} |}.

Definition scheduled : Config :=
  {| nodeBundler := None; schedule := Some "@daily"; otherSettings := [] |}.

(** The functions of a small source folder: a script function with a JSON
    file next to it, a pre-archived one, and a compiled binary. *)
Definition discovered `{NodeCollaborators} : list (string * FunctionSource) :=
  [ ("two", func jsRuntime "src/two" "two.js" ".js" scheduled);
    ("test.zip", func jsRuntime "src" "test.zip" ".zip" emptyConfig);
    ("test", func goRuntime "src" "test" EmptyString emptyConfig) ].

Definition discovery `{NodeCollaborators} : MainCollaborators :=
  {| getFlags := fun flags => default [] flags;
     resolveFunctionsDirectories :=
       fun folders => match folders with inl d => [d] | inr ds => ds end;
     listFunctionsDirectories :=
       fun folders fs => Ok ["src/two"; "src/test.zip"; "src/test"];
     getFunctionsFromPaths := fun paths config flags fs => Ok discovered |}.

(** A result that already has a [bundlerErrors] entry of its own. *)
Definition zisiArchiveWithErrors : ZipResult :=
  {[ "bundlerErrors" := JsStrings ["stale"];
     "path" := JsString "dist/two.zip" ]}.

(** A source folder that does not exist: the directory listing rejects. *)
Definition folderMissing : JsError :=
  {| message := "Functions folder does not exist: src";
     errors := JsUndefined |}.

Definition missingFolder : MainCollaborators :=
  {| getFlags := fun flags => default [] flags;
     resolveFunctionsDirectories :=
       fun folders => match folders with inl d => [d] | inr ds => ds end;
     listFunctionsDirectories := fun folders fs => Throw folderMissing;
     getFunctionsFromPaths := fun paths config flags fs => Ok [] |}.

(** A folder with a pre-archived function and a compiled binary only. *)
Definition discoveredPlain `{NodeCollaborators}
    : list (string * FunctionSource) :=
  [ ("test.zip", func jsRuntime "src" "test.zip" ".zip" emptyConfig);
    ("test", func goRuntime "src" "test" EmptyString emptyConfig) ].

Definition plainDiscovery `{NodeCollaborators} : MainCollaborators :=
  {| getFlags := fun flags => default [] flags;
     resolveFunctionsDirectories :=
       fun folders => match folders with inl d => [d] | inr ds => ds end;
     listFunctionsDirectories :=
       fun folders fs => Ok ["src/test.zip"; "src/test"];
     getFunctionsFromPaths := fun paths config flags fs => Ok discoveredPlain |}.

End Samples.

(** * Properties *)

(** ** Running the model *)

Example extname_examples :
  map extname ["two/three.json"; "index"; ".index"; "a.b/"; ".."; "index.";
               "x/.index.md"; "dir.d/file"; EmptyString; "test.zip"]
  = [".json"; EmptyString; EmptyString; ".b"; EmptyString; "."; ".md";
     EmptyString; EmptyString; ".zip"].
Proof. vm_compute. reflexivity. Qed.


(** ** The bundler constant and the dispatch of [zipFunction] *)

Section NodeRuntimeFacts.
Context `{NodeCollaborators}.
Import NodeRuntime.

Lemma js_or_else_truthy (b : string) (dflt : M string) st :
  b <> EmptyString -> js_or_else (Some b) dflt st = (st, Ok b).
Proof.
  intros Hb. unfold js_or_else.
  destruct (String.eqb_spec b EmptyString) as [E | _]; [contradiction | reflexivity].
Qed.

Lemma js_or_else_falsy (a : option string) (dflt : M string) st :
  a = None \/ a = Some EmptyString -> js_or_else a dflt st = dflt st.
Proof. intros [-> | ->]; reflexivity. Qed.

Lemma getDefaultBundler_run extension mainFile st :
  getDefaultBundler extension mainFile st =
    (st, Ok (if String.eqb extension ".ts" || detectEsModule (files st) mainFile
             then JS_BUNDLER_ESBUILD else JS_BUNDLER_ZISI)).
Proof.
  unfold getDefaultBundler.
  destruct (String.eqb extension ".ts"); [reflexivity |].
  unfold bind, inspect; simpl.
  destruct (detectEsModule (files st) mainFile); reflexivity.
Qed.

Lemma zipBundler_pinned config p b st :
  nodeBundler config = Some b -> b <> EmptyString ->
  zipBundler config p st = (st, Ok b).
Proof.
  intros Hb Hne. unfold zipBundler. rewrite Hb.
  now apply js_or_else_truthy.
Qed.

(** The bundler constant never changes the state and never throws. *)
Lemma zipBundler_total config p st :
  exists b, zipBundler config p st = (st, Ok b).
Proof.
  unfold zipBundler, js_or_else.
  destruct (nodeBundler config) as [s |].
  - destruct (String.eqb s EmptyString).
    + rewrite getDefaultBundler_run. eauto.
    + eauto.
  - rewrite getDefaultBundler_run. eauto.
Qed.

(** Whatever the bundler, a pre-archived function is copied. *)
Lemma zipFunction_zip p st :
  zp_extension p = ".zip" ->
  zipFunction p st =
    (copied <- cpFile (zp_srcPath p) (join (zp_destFolder p) (zp_filename p)) ;;
     ret ({[ "config" := JsConfig (default emptyConfig (zp_config p));
             "path" := JsString (join (zp_destFolder p) (zp_filename p)) ]}
            : ZipResult)) st.
Proof.
  intros Hzip. unfold zipFunction.
  destruct (zipBundler_total (default emptyConfig (zp_config p)) p st) as [b Hb].
  unfold bind at 1. rewrite Hb, Hzip. reflexivity.
Qed.

Lemma zipFunction_engine p b st :
  zipBundler (default emptyConfig (zp_config p)) p st = (st, Ok b) ->
  zp_extension p <> ".zip" ->
  let config := default emptyConfig (zp_config p) in
  zipFunction p st =
    if String.eqb b JS_BUNDLER_ZISI
    then external (EvZipZisi (zisiArgs p config)) (zipZisi (zisiArgs p config)) st
    else external (EvZipEsbuild (esbuildArgs p config))
           (zipEsbuild (esbuildArgs p config)) st.
Proof.
  intros Hb Hext config. unfold zipFunction. fold config.
  unfold bind. unfold config at 1. rewrite Hb.
  destruct (String.eqb_spec (zp_extension p) ".zip") as [E | _]; [contradiction |].
  destruct (String.eqb b JS_BUNDLER_ZISI); reflexivity.
Qed.

(** The three branches of [zipWithFunctionWithFallback]. *)
Lemma fallback_not_composite p st :
  nodeBundler (default emptyConfig (zp_config p)) <> Some JS_BUNDLER_ESBUILD_ZISI ->
  zipWithFunctionWithFallback p st =
    zipFunction (withConfig p (default emptyConfig (zp_config p))) st.
Proof.
  intros Hne. unfold zipWithFunctionWithFallback, js_strict_ne.
  destruct (nodeBundler (default emptyConfig (zp_config p))) as [s |]; [| reflexivity].
  destruct (String.eqb_spec s JS_BUNDLER_ESBUILD_ZISI) as [-> | _];
    [congruence | reflexivity].
Qed.

Lemma fallback_composite p st :
  nodeBundler (default emptyConfig (zp_config p)) = Some JS_BUNDLER_ESBUILD_ZISI ->
  let config := default emptyConfig (zp_config p) in
  zipWithFunctionWithFallback p st =
    match zipFunction (withConfig p (withNodeBundler config JS_BUNDLER_ESBUILD)) st with
    | (st1, Ok data) => (st1, Ok data)
    | (st1, Throw esbuildError) =>
        match zipFunction (withConfig p (withNodeBundler config JS_BUNDLER_ZISI)) st1 with
        | (st2, Ok data) =>
            (st2, Ok (<["bundlerErrors" := errors esbuildError]> data))
        | (st2, Throw zisiError) => (st2, Throw esbuildError)
        end
    end.
Proof.
  intros Hc config. unfold zipWithFunctionWithFallback. fold config.
  unfold config at 1. rewrite Hc. simpl.
  unfold try_catch, bind, ret, throw.
  destruct (zipFunction _ st) as [st1 [data | e1]]; [reflexivity |].
  destruct (zipFunction _ st1) as [st2 [data | e2]]; reflexivity.
Qed.

End NodeRuntimeFacts.

(** ** The fallback policy *)

Section FallbackPolicy.
Context `{NodeCollaborators}.
Import NodeRuntime.

(** With [nodeBundler] overridden to the delegated engine, a function that
    is not pre-archived goes to [zipEsbuild], once. *)
Lemma attempt_esbuild p config st :
  zp_extension p <> ".zip" ->
  let args := esbuildArgs p (withNodeBundler config JS_BUNDLER_ESBUILD) in
  zipFunction (withConfig p (withNodeBundler config JS_BUNDLER_ESBUILD)) st =
    external (EvZipEsbuild args) (zipEsbuild args) st.
Proof.
  intros Hext args.
  rewrite (zipFunction_engine _ JS_BUNDLER_ESBUILD); [reflexivity | | exact Hext].
  now apply zipBundler_pinned.
Qed.

(** With [nodeBundler] overridden to the Graph Builder, it goes to
    [zipZisi], once. *)
Lemma attempt_zisi p config st :
  zp_extension p <> ".zip" ->
  let args := zisiArgs p (withNodeBundler config JS_BUNDLER_ZISI) in
  zipFunction (withConfig p (withNodeBundler config JS_BUNDLER_ZISI)) st =
    external (EvZipZisi args) (zipZisi args) st.
Proof.
  intros Hext args.
  rewrite (zipFunction_engine _ JS_BUNDLER_ZISI); [reflexivity | | exact Hext].
  now apply zipBundler_pinned.
Qed.

(** C1. Under the composite strategy, when the attempt with the delegated
    engine (esbuild) fails and the retry with the Graph Builder (zisi)
    fails too, the caller gets the error of the first attempt, whatever
    the error of the retry is. *)
Theorem fallback_double_failure_surfaces_primary p st st1 st2 e1 e2 :
  nodeBundler (default emptyConfig (zp_config p)) = Some JS_BUNDLER_ESBUILD_ZISI ->
  zipFunction
    (withConfig p
       (withNodeBundler (default emptyConfig (zp_config p)) JS_BUNDLER_ESBUILD))
    st = (st1, Throw e1) ->
  zipFunction
    (withConfig p
       (withNodeBundler (default emptyConfig (zp_config p)) JS_BUNDLER_ZISI))
    st1 = (st2, Throw e2) ->
  zipWithFunctionWithFallback p st = (st2, Throw e1).
Proof.
  intros Hcomposite Hprimary Hretry.
  rewrite fallback_composite by exact Hcomposite.
  rewrite Hprimary, Hretry. reflexivity.
Qed.

(** The same at the level of the engines: both are called, in that order,
    and the error of [zipEsbuild] is the one thrown. *)
Lemma fallback_engines_both_fail p st fs1 fs2 e1 e2 :
  nodeBundler (default emptyConfig (zp_config p)) = Some JS_BUNDLER_ESBUILD_ZISI ->
  zp_extension p <> ".zip" ->
  let config := default emptyConfig (zp_config p) in
  let first := esbuildArgs p (withNodeBundler config JS_BUNDLER_ESBUILD) in
  let retry := zisiArgs p (withNodeBundler config JS_BUNDLER_ZISI) in
  zipEsbuild first (files st) = (fs1, Throw e1) ->
  zipZisi retry fs1 = (fs2, Throw e2) ->
  zipWithFunctionWithFallback p st =
    ({| files := fs2;
        trace := trace st ++ [EvZipEsbuild first; EvZipZisi retry] |},
     Throw e1).
Proof.
  intros Hcomposite Hext config first retry Hprimary Hretry.
  rewrite fallback_composite by exact Hcomposite.
  rewrite attempt_esbuild by exact Hext. fold config first.
  unfold external at 1. rewrite Hprimary.
  rewrite attempt_zisi by exact Hext. fold config retry.
  unfold external. simpl. rewrite Hretry.
  now rewrite <- app_assoc.
Qed.

(** C2, amended. Under the composite strategy, for a function that is not
    pre-archived, the first call is to the delegated engine; when it
    succeeds its result is returned and the Graph Builder is not called;
    when it fails and the retry with the Graph Builder succeeds, the
    result is the one of the retry with [bundlerErrors] set to the
    [errors] of the first failure. *)
Theorem composite_esbuild_first_then_zisi p st :
  nodeBundler (default emptyConfig (zp_config p)) = Some JS_BUNDLER_ESBUILD_ZISI ->
  zp_extension p <> ".zip" ->
  let config := default emptyConfig (zp_config p) in
  let first := esbuildArgs p (withNodeBundler config JS_BUNDLER_ESBUILD) in
  let retry := zisiArgs p (withNodeBundler config JS_BUNDLER_ZISI) in
  (exists rest,
      trace (fst (zipWithFunctionWithFallback p st)) =
        (trace st ++ EvZipEsbuild first :: rest)%list) /\
  (forall fs1 data,
      zipEsbuild first (files st) = (fs1, Ok data) ->
      zipWithFunctionWithFallback p st =
        ({| files := fs1; trace := trace st ++ [EvZipEsbuild first] |},
         Ok data)) /\
  (forall fs1 e1 fs2 data,
      zipEsbuild first (files st) = (fs1, Throw e1) ->
      zipZisi retry fs1 = (fs2, Ok data) ->
      zipWithFunctionWithFallback p st =
        ({| files := fs2;
            trace := trace st ++ [EvZipEsbuild first; EvZipZisi retry] |},
         Ok (<["bundlerErrors" := errors e1]> data))).
Proof.
  intros Hcomposite Hext config first retry.
  assert (Hrun : zipWithFunctionWithFallback p st =
    match zipEsbuild first (files st) with
    | (fs1, Ok data) =>
        ({| files := fs1; trace := trace st ++ [EvZipEsbuild first] |}, Ok data)
    | (fs1, Throw e1) =>
        match zipZisi retry fs1 with
        | (fs2, Ok data) =>
            ({| files := fs2;
                trace := trace st ++ [EvZipEsbuild first; EvZipZisi retry] |},
             Ok (<["bundlerErrors" := errors e1]> data))
        | (fs2, Throw e2) =>
            ({| files := fs2;
                trace := trace st ++ [EvZipEsbuild first; EvZipZisi retry] |},
             Throw e1)
        end
    end).
  { rewrite fallback_composite by exact Hcomposite.
    rewrite attempt_esbuild by exact Hext. fold config first.
    unfold external at 1.
    destruct (zipEsbuild first (files st)) as [fs1 [data | e1]]; [reflexivity |].
    rewrite attempt_zisi by exact Hext. fold config retry.
    unfold external. simpl.
    destruct (zipZisi retry fs1) as [fs2 [data | e2]];
      now rewrite <- app_assoc. }
  split; [| split].
  - rewrite Hrun.
    destruct (zipEsbuild first (files st)) as [fs1 [data | e1]].
    + exists []. reflexivity.
    + destruct (zipZisi retry fs1) as [fs2 [data | e2]];
        exists [EvZipZisi retry]; reflexivity.
  - intros fs1 data Hprimary. rewrite Hrun, Hprimary. reflexivity.
  - intros fs1 e1 fs2 data Hprimary Hretry.
    rewrite Hrun, Hprimary, Hretry. reflexivity.
Qed.

(** C3, amended. For a function that is not pre-archived and whose
    configuration pins the Graph Builder or the delegated engine, the
    orchestrator calls that engine once and nothing else, and returns its
    outcome as it is, a failure included. *)
Theorem pinned_strategy_runs_once p b st :
  nodeBundler (default emptyConfig (zp_config p)) = Some b ->
  b = JS_BUNDLER_ZISI \/ b = JS_BUNDLER_ESBUILD ->
  zp_extension p <> ".zip" ->
  let config := default emptyConfig (zp_config p) in
  (b = JS_BUNDLER_ZISI ->
     forall fs' outcome,
       zipZisi (zisiArgs p config) (files st) = (fs', outcome) ->
       zipWithFunctionWithFallback p st =
         ({| files := fs';
             trace := trace st ++ [EvZipZisi (zisiArgs p config)] |},
          outcome)) /\
  (b = JS_BUNDLER_ESBUILD ->
     forall fs' outcome,
       zipEsbuild (esbuildArgs p config) (files st) = (fs', outcome) ->
       zipWithFunctionWithFallback p st =
         ({| files := fs';
             trace := trace st ++ [EvZipEsbuild (esbuildArgs p config)] |},
          outcome)).
Proof.
  intros Hpinned Hsingle Hext config.
  assert (Hne : b <> EmptyString) by (destruct Hsingle; subst b; discriminate).
  assert (Hrun : zipWithFunctionWithFallback p st =
    if String.eqb b JS_BUNDLER_ZISI
    then external (EvZipZisi (zisiArgs p config))
           (zipZisi (zisiArgs p config)) st
    else external (EvZipEsbuild (esbuildArgs p config))
           (zipEsbuild (esbuildArgs p config)) st).
  { rewrite fallback_not_composite
      by (rewrite Hpinned; destruct Hsingle; subst b; discriminate).
    rewrite (zipFunction_engine _ b); [reflexivity | | exact Hext].
    now apply zipBundler_pinned. }
  split; intros -> fs' outcome Hcall; rewrite Hrun; simpl;
    unfold external; rewrite Hcall; reflexivity.
Qed.

End FallbackPolicy.

(** *** The fallback policy on sample functions *)

Section FallbackSamples.
Import NodeRuntime Samples.

(** Both engines fail, with different errors: the first one surfaces. *)
Lemma fallback_double_failure_witness :
  exists st2,
    @zipWithFunctionWithFallback
      (engines (Throw buildFailed) (Throw missingDependency))
      (params "src/two" "two.js" ".js" (Some (pinned JS_BUNDLER_ESBUILD_ZISI)))
      start
    = (st2, Throw buildFailed).
Proof.
  eexists.
  eapply (@fallback_double_failure_surfaces_primary
            (engines (Throw buildFailed) (Throw missingDependency))).
  - reflexivity.
  - vm_compute. reflexivity.
  - vm_compute. reflexivity.
Defined.

(** The delegated engine fails, the Graph Builder succeeds. *)
Lemma composite_esbuild_first_then_zisi_witness :
  let p := params "src/two" "two.js" ".js" (Some (pinned JS_BUNDLER_ESBUILD_ZISI)) in
  @zipWithFunctionWithFallback (engines (Throw buildFailed) (Ok zisiArchive)) p start
  = ({| files := disk;
        trace := [ EvZipEsbuild (esbuildArgs p (pinned JS_BUNDLER_ESBUILD));
                   EvZipZisi (zisiArgs p (pinned JS_BUNDLER_ZISI)) ] |},
     Ok (<["bundlerErrors" := JsStrings ["Could not resolve left-pad"]]>
           zisiArchive)).
Proof.
  intros p.
  destruct (@composite_esbuild_first_then_zisi
              (engines (Throw buildFailed) (Ok zisiArchive)) p start)
    as (_ & _ & Hretry); [reflexivity | discriminate |].
  exact (Hretry disk buildFailed disk zisiArchive eq_refl eq_refl).
Defined.

(** A pre-archived function under the composite strategy: the only call is
    the copy, the delegated engine is not attempted. *)
Lemma prearchived_composite_skips_engines :
  let run :=
    @zipWithFunctionWithFallback (engines (Ok esbuildArchive) (Ok zisiArchive))
      (params "src" "test.zip" ".zip" (Some (pinned JS_BUNDLER_ESBUILD_ZISI)))
      start in
  trace (fst run) = [EvCpFile "src/test.zip" "dist/test.zip"] /\
  ~ (exists a rest, trace (fst run) = EvZipEsbuild a :: rest).
Proof.
  intros run.
  assert (Htrace : trace (fst run) = [EvCpFile "src/test.zip" "dist/test.zip"])
    by (vm_compute; reflexivity).
  split; [exact Htrace |].
  intros (a & rest & Hfirst). rewrite Htrace in Hfirst. discriminate.
Qed.

(** Each pinned engine, on a script function: one call, outcome returned. *)
Lemma pinned_strategy_runs_once_witness :
  let p := params "src/two" "two.js" ".js" (Some (pinned JS_BUNDLER_ZISI)) in
  @zipWithFunctionWithFallback
    (engines (Ok esbuildArchive) (Throw missingDependency)) p start
  = ({| files := disk;
        trace := [EvZipZisi (zisiArgs p (pinned JS_BUNDLER_ZISI))] |},
     Throw missingDependency).
Proof.
  intros p.
  destruct (@pinned_strategy_runs_once
              (engines (Ok esbuildArchive) (Throw missingDependency))
              p JS_BUNDLER_ZISI start)
    as (Hzisi & _); [reflexivity | left; reflexivity | discriminate |].
  exact (Hzisi eq_refl disk (Throw missingDependency) eq_refl).
Defined.

(** A pre-archived function with the Graph Builder pinned: the archive is
    copied and the pinned engine is never called. *)
Lemma prearchived_pinned_skips_engine :
  let run :=
    @zipWithFunctionWithFallback (engines (Ok esbuildArchive) (Ok zisiArchive))
      (params "src" "test.zip" ".zip" (Some (pinned JS_BUNDLER_ZISI)))
      start in
  trace (fst run) = [EvCpFile "src/test.zip" "dist/test.zip"] /\
  ~ (exists a, In (EvZipZisi a) (trace (fst run))).
Proof.
  intros run.
  assert (Htrace : trace (fst run) = [EvCpFile "src/test.zip" "dist/test.zip"])
    by (vm_compute; reflexivity).
  split; [exact Htrace |].
  intros (a & Hin). rewrite Htrace in Hin.
  destruct Hin as [Hev | []]. discriminate.
Qed.

End FallbackSamples.

(** ** Strategy selection *)

Section StrategySelection.
Context `{NodeCollaborators}.
Import NodeRuntime.

(** C4, amended. When the configuration pins no bundler ([nodeBundler] is
    missing or empty), [zipFunction] selects the delegated engine
    (esbuild) when the extension is [.ts] or ES-module syntax is detected
    in the entry file, and the Graph Builder (zisi) otherwise; a function
    that is not pre-archived is then handed to the selected engine. *)
Theorem default_bundler_selection p st :
  nodeBundler (default emptyConfig (zp_config p)) = None \/
  nodeBundler (default emptyConfig (zp_config p)) = Some EmptyString ->
  let config := default emptyConfig (zp_config p) in
  let selected :=
    if String.eqb (zp_extension p) ".ts"
       || detectEsModule (files st) (Some (zp_mainFile p))
    then JS_BUNDLER_ESBUILD else JS_BUNDLER_ZISI in
  zipBundler config p st = (st, Ok selected) /\
  (zp_extension p <> ".zip" ->
   zipFunction p st =
     if String.eqb (zp_extension p) ".ts"
        || detectEsModule (files st) (Some (zp_mainFile p))
     then external (EvZipEsbuild (esbuildArgs p config))
            (zipEsbuild (esbuildArgs p config)) st
     else external (EvZipZisi (zisiArgs p config))
            (zipZisi (zisiArgs p config)) st).
Proof.
  intros Hunpinned config selected.
  assert (Hsel : zipBundler config p st = (st, Ok selected)).
  { unfold zipBundler. rewrite js_or_else_falsy by exact Hunpinned.
    apply getDefaultBundler_run. }
  split; [exact Hsel |].
  intros Hext. rewrite (zipFunction_engine p selected st Hsel Hext).
  unfold selected.
  destruct (String.eqb (zp_extension p) ".ts"
            || detectEsModule (files st) (Some (zp_mainFile p)));
    reflexivity.
Qed.

(** The lister's bundler constant, when no bundler is pinned: the probe
    gets no entry file at all. *)
Lemma srcFilesBundler_unpinned config sp st :
  nodeBundler config = None \/ nodeBundler config = Some EmptyString ->
  srcFilesBundler config sp st =
    (st, Ok (if String.eqb (sp_extension sp) ".ts"
                || detectEsModule (files st) None
             then JS_BUNDLER_ESBUILD else JS_BUNDLER_ZISI)).
Proof.
  intros Hunpinned. unfold srcFilesBundler.
  rewrite js_or_else_falsy by exact Hunpinned.
  apply getDefaultBundler_run.
Qed.

Lemma zipBundler_unpinned config p st :
  nodeBundler config = None \/ nodeBundler config = Some EmptyString ->
  zipBundler config p st =
    (st, Ok (if String.eqb (zp_extension p) ".ts"
                || detectEsModule (files st) (Some (zp_mainFile p))
             then JS_BUNDLER_ESBUILD else JS_BUNDLER_ZISI)).
Proof.
  intros Hunpinned. unfold zipBundler.
  rewrite js_or_else_falsy by exact Hunpinned.
  apply getDefaultBundler_run.
Qed.

(** C6, at the failing inputs. For one function and one configuration that
    pins no bundler, [getSrcFilesWithBundler] calls [getDefaultBundler]
    without the entry file while [zipFunction] passes it: whenever the
    probe answers differently for the entry file than for no file, and the
    extension is not [.ts], the two paths select different bundlers. *)
Theorem listing_bundler_ignores_entry_file config p sp st :
  nodeBundler config = None \/ nodeBundler config = Some EmptyString ->
  sp_extension sp = zp_extension p ->
  sp_mainFile sp = zp_mainFile p ->
  zp_extension p <> ".ts" ->
  detectEsModule (files st) (Some (zp_mainFile p))
    <> detectEsModule (files st) None ->
  snd (srcFilesBundler config sp st) <> snd (zipBundler config p st).
Proof.
  intros Hunpinned Hext _ Hts Hprobe.
  rewrite srcFilesBundler_unpinned, zipBundler_unpinned by exact Hunpinned.
  rewrite Hext. simpl.
  destruct (String.eqb_spec (zp_extension p) ".ts") as [E | _]; [contradiction |].
  simpl.
  destruct (detectEsModule (files st) (Some (zp_mainFile p))),
           (detectEsModule (files st) None);
    solve [congruence | discriminate].
Qed.

(** With a pinned bundler the two paths agree. *)
Lemma pinned_bundler_agrees config p sp b st :
  nodeBundler config = Some b -> b <> EmptyString ->
  snd (srcFilesBundler config sp st) = snd (zipBundler config p st).
Proof.
  intros Hb Hne. unfold srcFilesBundler, zipBundler. rewrite Hb.
  now rewrite !js_or_else_truthy.
Qed.

End StrategySelection.

Section StrategySelectionSamples.
Import NodeRuntime Samples.

(** A TypeScript entry file with no ES-module syntax and no pinned bundler:
    the delegated engine is selected and called. *)
Lemma typescript_without_module_syntax_selects_esbuild :
  let collaborators := engines (Ok esbuildArchive) (Ok zisiArchive) in
  let p := params "src" "typed.ts" ".ts" None in
  nodeBundler (default emptyConfig (zp_config p)) = None /\
  @detectEsModule collaborators (files start) (Some (zp_mainFile p)) = false /\
  @zipBundler collaborators emptyConfig p start = (start, Ok JS_BUNDLER_ESBUILD) /\
  trace (fst (@zipFunction collaborators p start))
    = [EvZipEsbuild (esbuildArgs p emptyConfig)] /\
  JS_BUNDLER_ESBUILD <> JS_BUNDLER_ZISI.
Proof.
  intros collaborators p.
  repeat split; try (vm_compute; reflexivity). discriminate.
Qed.

(** A script entry file with no ES-module syntax: the Graph Builder. *)
Lemma default_bundler_selection_witness :
  let collaborators := engines (Ok esbuildArchive) (Ok zisiArchive) in
  let p := params "src/two" "two.js" ".js" None in
  @zipBundler collaborators emptyConfig p start = (start, Ok JS_BUNDLER_ZISI).
Proof.
  intros collaborators p.
  destruct (@default_bundler_selection collaborators p start) as [Hsel _];
    [left; reflexivity |].
  exact Hsel.
Defined.

(** An ES-module entry file and no pinned bundler: listed with the Graph
    Builder, packaged with the delegated engine. *)
Lemma listing_bundler_ignores_entry_file_witness :
  let collaborators := engines (Ok esbuildArchive) (Ok zisiArchive) in
  let p := params "src" "esm.js" ".js" (Some emptyConfig) in
  let sp := listing "src" "esm.js" ".js" emptyConfig in
  snd (@srcFilesBundler collaborators emptyConfig sp start) = Ok JS_BUNDLER_ZISI /\
  snd (@zipBundler collaborators emptyConfig p start) = Ok JS_BUNDLER_ESBUILD /\
  snd (@srcFilesBundler collaborators emptyConfig sp start)
    <> snd (@zipBundler collaborators emptyConfig p start).
Proof.
  intros collaborators p sp.
  split; [vm_compute; reflexivity |].
  split; [vm_compute; reflexivity |].
  apply (@listing_bundler_ignores_entry_file collaborators emptyConfig p sp start).
  - left; reflexivity.
  - reflexivity.
  - reflexivity.
  - discriminate.
  - vm_compute. discriminate.
Defined.

(** The same divergence in the calls made: the lister is asked for the
    Graph Builder's files, the packaging runs the delegated engine. *)
Lemma es_module_listed_as_zisi_packaged_by_esbuild :
  let collaborators := engines (Ok esbuildArchive) (Ok zisiArchive) in
  let p := params "src" "esm.js" ".js" (Some emptyConfig) in
  let sp := listing "src" "esm.js" ".js" emptyConfig in
  trace (fst (@getSrcFilesWithBundler collaborators sp start))
    = [EvSrcFiles {| sa_parameters := sp; sa_bundler := JS_BUNDLER_ZISI |}] /\
  trace (fst (@zipWithFunctionWithFallback collaborators p start))
    = [EvZipEsbuild (esbuildArgs p emptyConfig)].
Proof. split; vm_compute; reflexivity. Qed.

End StrategySelectionSamples.

(** ** Pre-archived functions *)

Section Passthrough.
Context `{NodeCollaborators}.
Import NodeRuntime.

(** One attempt to package a pre-archived function: a copy, and nothing
    else. The file system changes only when the source can be read. *)
Lemma zipFunction_zip_run p st :
  zp_extension p = ".zip" ->
  let src := zp_srcPath p in
  let dst := join (zp_destFolder p) (zp_filename p) in
  zipFunction p st =
    match files st !! src with
    | Some bytes =>
        ({| files := <[dst := bytes]> (files st);
            trace := trace st ++ [EvCpFile src dst] |},
         Ok {[ "config" := JsConfig (default emptyConfig (zp_config p));
               "path" := JsString dst ]})
    | None =>
        ({| files := files st; trace := trace st ++ [EvCpFile src dst] |},
         Throw {| message := "Cannot read from " ++ src;
                  errors := JsUndefined |})
    end.
Proof.
  intros Hzip src dst. rewrite zipFunction_zip by exact Hzip.
  unfold bind, cpFile, external. fold src dst.
  destruct (files st !! src); reflexivity.
Qed.

(** C5. A function whose extension is [.zip] is packaged by copying: for
    the inner [zipFunction] and for the exported one with its fallback,
    whatever bundler the configuration names, the only calls made are
    copies of the source archive to [join(destFolder, filename)] (no
    engine, no source listing), and when the source archive can be read
    its bytes are written unchanged to that path, no other file changes,
    and the result's [path] is that path. *)
Theorem prearchived_passthrough p (run : M ZipResult) :
  zp_extension p = ".zip" ->
  run = zipFunction p \/ run = zipWithFunctionWithFallback p ->
  let src := zp_srcPath p in
  let dst := join (zp_destFolder p) (zp_filename p) in
  (forall st, exists copies,
      trace (fst (run st)) = (trace st ++ copies)%list /\
      Forall (fun ev => ev = EvCpFile src dst) copies) /\
  (forall st bytes,
      files st !! src = Some bytes ->
      exists result,
        run st =
          ({| files := <[dst := bytes]> (files st);
              trace := trace st ++ [EvCpFile src dst] |},
           Ok result) /\
        result !! "path" = Some (JsString dst)).
Proof.
  intros Hzip Hrun src dst.
  assert (Hany : forall config st,
    zipFunction (withConfig p config) st =
      match files st !! src with
      | Some bytes =>
          ({| files := <[dst := bytes]> (files st);
              trace := trace st ++ [EvCpFile src dst] |},
           Ok {[ "config" := JsConfig config; "path" := JsString dst ]})
      | None =>
          ({| files := files st; trace := trace st ++ [EvCpFile src dst] |},
           Throw {| message := "Cannot read from " ++ src;
                    errors := JsUndefined |})
      end).
  { intros config st. now rewrite zipFunction_zip_run by exact Hzip. }
  destruct Hrun as [-> | ->].
  - split.
    + intros st. rewrite zipFunction_zip_run by exact Hzip. fold src dst.
      exists [EvCpFile src dst].
      destruct (files st !! src); simpl; auto.
    + intros st bytes Hsrc. rewrite zipFunction_zip_run by exact Hzip.
      fold src dst. rewrite Hsrc. eexists; split; [reflexivity |].
      rewrite lookup_insert_ne by discriminate. apply lookup_insert_eq.
  - destruct (decide (nodeBundler (default emptyConfig (zp_config p))
                      = Some JS_BUNDLER_ESBUILD_ZISI)) as [Hcomposite | Hsingle].
    + split.
      * intros st. rewrite fallback_composite by exact Hcomposite.
        rewrite Hany. destruct (files st !! src) as [bytes |] eqn:Hsrc.
        { exists [EvCpFile src dst]. simpl; auto. }
        rewrite Hany. simpl. rewrite Hsrc. simpl.
        exists [EvCpFile src dst; EvCpFile src dst].
        rewrite <- app_assoc. simpl; auto.
      * intros st bytes Hsrc. rewrite fallback_composite by exact Hcomposite.
        rewrite Hany, Hsrc. eexists; split; [reflexivity |].
        rewrite lookup_insert_ne by discriminate. apply lookup_insert_eq.
    + split.
      * intros st. rewrite fallback_not_composite by exact Hsingle.
        rewrite Hany. exists [EvCpFile src dst].
        destruct (files st !! src); simpl; auto.
      * intros st bytes Hsrc. rewrite fallback_not_composite by exact Hsingle.
        rewrite Hany, Hsrc. eexists; split; [reflexivity |].
        rewrite lookup_insert_ne by discriminate. apply lookup_insert_eq.
Qed.

End Passthrough.

Section PassthroughSamples.
Import NodeRuntime Samples.

(** The archive [src/test.zip] under the composite strategy: copied to
    [dist/test.zip], byte for byte. *)
Lemma prearchived_passthrough_witness :
  let collaborators := engines (Throw buildFailed) (Throw missingDependency) in
  let p := params "src" "test.zip" ".zip" (Some (pinned JS_BUNDLER_ESBUILD_ZISI)) in
  exists result,
    @zipWithFunctionWithFallback collaborators p start =
      ({| files := <["dist/test.zip" := list_byte_of_string "test"]> disk;
          trace := [EvCpFile "src/test.zip" "dist/test.zip"] |},
       Ok result) /\
    result !! "path" = Some (JsString "dist/test.zip").
Proof.
  intros collaborators p.
  destruct (@prearchived_passthrough collaborators p
              (@zipWithFunctionWithFallback collaborators p))
    as [_ Hcopy]; [reflexivity | right; reflexivity |].
  exact (Hcopy start (list_byte_of_string "test") eq_refl).
Defined.

End PassthroughSamples.

(** ** Listing: [main.ts] *)

Section Listing.
Context `{MainCollaborators}.
Import Main.

(** C8. [listFunctions] only discovers: it leaves the file system and the
    log of calls as they were (no source listing, no engine, no copy), and
    when the discovery succeeds it returns, for each discovered function
    in order, the record made of its name, main file, runtime name,
    extension and the optional schedule of its configuration. *)
Theorem listFunctions_discovery_only relativeSrcFolders inputFeatureFlags config :
  (forall st,
      fst (listFunctions relativeSrcFolders inputFeatureFlags config st) = st) /\
  (forall st paths functions,
      listFunctionsDirectories
        (resolveFunctionsDirectories relativeSrcFolders) (files st) = Ok paths ->
      getFunctionsFromPaths paths config (getFlags inputFeatureFlags) (files st)
        = Ok functions ->
      listFunctions relativeSrcFolders inputFeatureFlags config st =
        (st,
         Ok (map (fun entry : string * FunctionSource =>
                    {| lf_name := fn_name (snd entry);
                       lf_mainFile := fn_mainFile (snd entry);
                       lf_runtime := rt_name (fn_runtime (snd entry));
                       lf_extension := fn_extension (snd entry);
                       lf_schedule := schedule (fn_config (snd entry)) |})
                 functions))).
Proof.
  split.
  - intros st. unfold listFunctions, bind, reading, ret.
    destruct (listFunctionsDirectories _ (files st)) as [paths | e];
      [| reflexivity].
    destruct (getFunctionsFromPaths paths _ _ (files st)); reflexivity.
  - intros st paths functions Hpaths Hfunctions.
    unfold listFunctions, bind, reading, ret.
    rewrite Hpaths, Hfunctions. rewrite map_map. reflexivity.
Qed.

(** C9. For a function whose extension is [.zip], or whose runtime has no
    [getSrcFiles], the source files are the function's own source path
    alone; nothing is called and the state is left as it was. *)
Theorem getSrcFiles_own_path func basePath featureFlags st :
  fn_extension func = ".zip" \/ rt_getSrcFiles (fn_runtime func) = None ->
  getSrcFiles func basePath featureFlags st = (st, Ok [fn_srcPath func]).
Proof.
  intros [Hzip | Hnone]; unfold getSrcFiles.
  - rewrite Hzip. reflexivity.
  - rewrite Hnone. destruct (String.eqb (fn_extension func) ".zip"); reflexivity.
Qed.

(** What [getListedFunctionFiles] makes of one function. *)
Lemma getListedFunctionFiles_records func basePath featureFlags st st' records :
  getListedFunctionFiles func basePath featureFlags st = (st', Ok records) ->
  Forall (fun r =>
            lff_extension r = extname (lff_srcFile r) /\
            lff_name r = fn_name func /\
            lff_mainFile r = fn_mainFile func /\
            lff_runtime r = rt_name (fn_runtime func))
         records.
Proof.
  unfold getListedFunctionFiles, bind, ret.
  destruct (getSrcFiles func basePath featureFlags st) as [st1 [srcFiles | e]];
    [| discriminate].
  intros [= _ <-]. apply Forall_forall. intros r Hr.
  apply list_elem_of_In, in_map_iff in Hr as (srcFile & <- & _).
  repeat split.
Qed.

Lemma promise_all_results {A B} (f : A -> M B) l st st' results :
  promise_all f l st = (st', Ok results) ->
  Forall2 (fun a b => exists s s', f a s = (s', Ok b)) l results.
Proof.
  revert st results. induction l as [| a l IH]; intros st results; simpl.
  - intros [= _ <-]. constructor.
  - destruct (f a st) as [s1 [b | e]] eqn:Hfa; [| discriminate].
    destruct (promise_all f l s1) as [s2 [bs | e]] eqn:Hrest; [| discriminate].
    intros [= <- <-]. constructor.
    + exists st, s1. exact Hfa.
    + eapply IH. exact Hrest.
Qed.

(** One record per resolved source file, made from the function and the
    file. *)
Lemma getListedFunctionFiles_inversion func basePath featureFlags s s' records :
  getListedFunctionFiles func basePath featureFlags s = (s', Ok records) ->
  exists srcFiles,
    getSrcFiles func basePath featureFlags s = (s', Ok srcFiles) /\
    records =
      map (fun srcFile =>
             {| lff_srcFile := srcFile;
                lff_name := fn_name func;
                lff_mainFile := fn_mainFile func;
                lff_runtime := rt_name (fn_runtime func);
                lff_extension := extname srcFile |})
          srcFiles.
Proof.
  unfold getListedFunctionFiles, bind, ret.
  destruct (getSrcFiles func basePath featureFlags s) as [s1 [srcFiles | e]];
    [| discriminate].
  intros [= <- <-]. eauto.
Qed.

(** A listing of all the functions that succeeds is, call by call and
    state by state, the resolution of their source files, each group of
    records being made from its function and that function's files. *)
Lemma promise_all_resolved basePath featureFlags funcs st st' groups :
  promise_all (fun func => getListedFunctionFiles func basePath featureFlags)
    funcs st = (st', Ok groups) ->
  exists perFunction,
    promise_all (fun func => getSrcFiles func basePath featureFlags) funcs st
      = (st', Ok perFunction) /\
    groups =
      zip_with
        (fun func srcFiles =>
           map (fun srcFile =>
                  {| lff_srcFile := srcFile;
                     lff_name := fn_name func;
                     lff_mainFile := fn_mainFile func;
                     lff_runtime := rt_name (fn_runtime func);
                     lff_extension := extname srcFile |})
               srcFiles)
        funcs perFunction.
Proof.
  revert st groups. induction funcs as [| func funcs IH]; intros st groups; simpl.
  - intros [= <- <-]. exists []. split; reflexivity.
  - destruct (getListedFunctionFiles func basePath featureFlags st)
      as [s1 [records | e]] eqn:Hone; [| discriminate].
    destruct (promise_all _ funcs s1) as [s2 [rest | e]] eqn:Hrest;
      [| discriminate].
    intros [= <- <-].
    apply getListedFunctionFiles_inversion in Hone as (srcFiles & Hsrc & ->).
    apply IH in Hrest as (perFunction & Hall & ->).
    exists (srcFiles :: perFunction). rewrite Hsrc, Hall. split; reflexivity.
Qed.

Lemma promise_all_length {A B} (f : A -> M B) l st st' results :
  promise_all f l st = (st', Ok results) -> length results = length l.
Proof.
  intros Hall. apply promise_all_results, Forall2_length in Hall. now symmetry.
Qed.

(** C10. Every record returned by [listFunctionsFiles] is made from the
    function that owns it, the function whose source files, resolved in
    this run, include the record's [srcFile]: the records are, function by
    function in the order of discovery and file by file, the record with
    that [srcFile], with the name, the main file and the runtime name of
    that function, and with the extension of that [srcFile]. In particular
    the extension of every record is the extension of its own [srcFile]. *)
Theorem listFunctionsFiles_records
    relativeSrcFolders basePath config inputFeatureFlags st st' records :
  listFunctionsFiles relativeSrcFolders basePath config inputFeatureFlags st
    = (st', Ok records) ->
  exists paths functions perFunction,
    listFunctionsDirectories
      (resolveFunctionsDirectories relativeSrcFolders) (files st) = Ok paths /\
    getFunctionsFromPaths paths config (getFlags inputFeatureFlags) (files st)
      = Ok functions /\
    promise_all
      (fun func => getSrcFiles func basePath (getFlags inputFeatureFlags))
      (map snd functions) st
      = (st', Ok perFunction) /\
    records =
      concat
        (zip_with
           (fun func srcFiles =>
              map (fun srcFile =>
                     {| lff_srcFile := srcFile;
                        lff_name := fn_name func;
                        lff_mainFile := fn_mainFile func;
                        lff_runtime := rt_name (fn_runtime func);
                        lff_extension := extname srcFile |})
                  srcFiles)
           (map snd functions) perFunction) /\
    Forall (fun r => lff_extension r = extname (lff_srcFile r)) records.
Proof.
  unfold listFunctionsFiles, bind, reading, ret.
  destruct (listFunctionsDirectories _ (files st)) as [paths | e] eqn:Hpaths;
    [| discriminate].
  destruct (getFunctionsFromPaths paths _ _ (files st))
    as [functions | e] eqn:Hfunctions; [| discriminate].
  destruct (promise_all _ (map snd functions) st)
    as [st1 [groups | e]] eqn:Hall; [| discriminate].
  intros [= <- <-].
  apply promise_all_resolved in Hall as (perFunction & Hall & ->).
  exists paths, functions, perFunction.
  split; [first [reflexivity | assumption] |].
  split; [first [reflexivity | assumption] |].
  split; [exact Hall |]. split; [reflexivity |].
  clear Hall. generalize (map snd functions) as funcs. intros funcs.
  revert perFunction. induction funcs as [| func funcs IH];
    intros [| srcFiles perFunction]; simpl; try constructor.
  apply Forall_app. split; [| apply IH].
  apply Forall_forall. intros r Hr.
  apply list_elem_of_In, in_map_iff in Hr as (srcFile & <- & _). reflexivity.
Qed.

End Listing.

Section ListingSamples.
Import Main Samples.

(** The sample folder, listed: one record per function, the schedule of
    the first one included. *)
Lemma listFunctions_discovery_only_witness :
  let collaborators := @discovery (engines (Ok esbuildArchive) (Ok zisiArchive)) in
  @listFunctions collaborators (inl "src") None None start =
    (start,
     Ok [ {| lf_name := "two.js"; lf_mainFile := "src/two/two.js";
             lf_runtime := "js"; lf_extension := ".js";
             lf_schedule := Some "@daily" |};
          {| lf_name := "test.zip"; lf_mainFile := "src/test.zip";
             lf_runtime := "js"; lf_extension := ".zip";
             lf_schedule := None |};
          {| lf_name := "test"; lf_mainFile := "src/test";
             lf_runtime := "go"; lf_extension := EmptyString;
             lf_schedule := None |} ]).
Proof.
  intros collaborators.
  destruct (@listFunctions_discovery_only collaborators (inl "src") None None)
    as [_ Hrecords].
  exact (Hrecords start _ _ eq_refl eq_refl).
Defined.

(** A pre-archived function of the script runtime, and a binary of a
    runtime with no lister. *)
Lemma getSrcFiles_own_path_witness :
  let collaborators := engines (Ok esbuildArchive) (Ok zisiArchive) in
  getSrcFiles (func (@jsRuntime collaborators) "src" "test.zip" ".zip" emptyConfig)
    None [] start = (start, Ok ["src/test.zip"]) /\
  getSrcFiles (func goRuntime "src" "test" EmptyString emptyConfig)
    None [] start = (start, Ok ["src/test"]).
Proof.
  intros collaborators. split.
  - apply getSrcFiles_own_path. left. reflexivity.
  - apply getSrcFiles_own_path. right. reflexivity.
Defined.

(** The sample folder, listed file by file: the JSON file that the script
    function requires is listed under that function, with the extension
    [.json] while the function's own extension is [.js]; the archive and
    the binary are listed under their own functions. *)
Lemma listFunctionsFiles_records_witness :
  let collaborators := @discovery (engines (Ok esbuildArchive) (Ok zisiArchive)) in
  let records :=
    [ {| lff_srcFile := "src/two/three.json"; lff_name := "two.js";
         lff_mainFile := "src/two/two.js"; lff_runtime := "js";
         lff_extension := ".json" |};
      {| lff_srcFile := "src/two/two.js"; lff_name := "two.js";
         lff_mainFile := "src/two/two.js"; lff_runtime := "js";
         lff_extension := ".js" |};
      {| lff_srcFile := "src/test.zip"; lff_name := "test.zip";
         lff_mainFile := "src/test.zip"; lff_runtime := "js";
         lff_extension := ".zip" |};
      {| lff_srcFile := "src/test"; lff_name := "test";
         lff_mainFile := "src/test"; lff_runtime := "go";
         lff_extension := EmptyString |} ] in
  snd (@listFunctionsFiles collaborators (inl "src") None None None start)
    = Ok records /\
  (exists st',
      Main.promise_all (fun func => getSrcFiles func None [])
        (map snd (@discovered (engines (Ok esbuildArchive) (Ok zisiArchive))))
        start
      = (st', Ok [ ["src/two/three.json"; "src/two/two.js"];
                   ["src/test.zip"]; ["src/test"] ])) /\
  Forall (fun r => lff_extension r = extname (lff_srcFile r)) records.
Proof.
  intros collaborators records.
  assert (Hrun : exists st',
    @listFunctionsFiles collaborators (inl "src") None None None start
      = (st', Ok records)) by (eexists; vm_compute; reflexivity).
  destruct Hrun as [st' Hrun].
  split; [now rewrite Hrun |].
  destruct (@listFunctionsFiles_records collaborators _ _ _ _ _ _ _ Hrun)
    as (paths & functions & perFunction & _ & _ & _ & _ & Hextensions).
  split; [| exact Hextensions].
  eexists. vm_compute. reflexivity.
Defined.

End ListingSamples.

(** ** Determinism of the archive *)

Section Determinism.
Import ArchiveAssembler.

#[local] Instance byPath_transitive : Transitive byPath.
Proof. intros a b c. unfold byPath. apply transitivity. Qed.

#[local] Instance byPath_total : Total byPath.
Proof. intros a b. unfold byPath. apply total, _. Qed.

(** Among files with pairwise distinct paths, the path names the file. *)
Lemma distinct_paths_name_files (l : list OutputFile) x y :
  NoDup (map of_path l) -> In x l -> In y l -> of_path x = of_path y -> x = y.
Proof.
  induction l as [| a l IH]; simpl; [intros _ [] |].
  intros Hnodup Hx Hy Hpath.
  apply NoDup_cons in Hnodup as [Hfresh Hnodup].
  rewrite list_elem_of_In in Hfresh.
  destruct Hx as [-> | Hx], Hy as [-> | Hy]; auto.
  - exfalso. apply Hfresh. rewrite Hpath. now apply in_map.
  - exfalso. apply Hfresh. rewrite <- Hpath. now apply in_map.
Qed.

(** Sorting by path forgets the order in which the files were collected. *)
Lemma sort_by_path_canonical (l1 l2 : list OutputFile) :
  NoDup (map of_path l1) -> l1 ≡ₚ l2 ->
  merge_sort byPath l1 = merge_sort byPath l2.
Proof.
  intros Hnodup Hperm.
  apply (Sorted_unique_strong byPath).
  - intros x1 x2 Hx1 Hx2 H12 H21.
    rewrite merge_sort_Permutation in Hx1, Hx2.
    rewrite <- Hperm in Hx2.
    apply (distinct_paths_name_files l1 x1 x2 Hnodup).
    + now apply list_elem_of_In.
    + now apply list_elem_of_In.
    + unfold byPath in H12, H21. now apply (anti_symm String.le).
  - apply Sorted_merge_sort, _.
  - apply Sorted_merge_sort, _.
  - now rewrite !merge_sort_Permutation.
Qed.

(** C7. Two runs that package the same function (the same strategy and
    the same output files, with pairwise distinct paths, collected in any
    order, at any two wall-clock times) write the same archive bytes. *)
Theorem packaging_is_deterministic
    metadataName runtime now1 now2 outcome1 outcome2 :
  sameFunction outcome1 outcome2 ->
  NoDup (map of_path (outputFiles outcome1)) ->
  assemble metadataName runtime now1 outcome1
    = assemble metadataName runtime now2 outcome2.
Proof.
  intros [Hstrategy Hfiles] Hnodup. unfold assemble, entries.
  rewrite <- Hstrategy.
  destruct (strategyUsed outcome1).
  - now rewrite Hfiles.
  - now rewrite (sort_by_path_canonical _ _ Hnodup Hfiles).
  - now rewrite (sort_by_path_canonical _ _ Hnodup Hfiles).
Qed.

End Determinism.

Section DeterminismSamples.
Import ArchiveAssembler.

(** The files of one function, collected in two different orders by two
    runs at different times: one and the same archive. *)
Lemma packaging_is_deterministic_witness :
  let a := {| of_path := "a.js"; of_mode := 420;
              of_content := list_byte_of_string "require('./b')" |} in
  let b := {| of_path := "b.js"; of_mode := 420;
              of_content := list_byte_of_string "require('left-pad')" |} in
  let pad := {| of_path := "node_modules/left-pad/index.js"; of_mode := 493;
                of_content := list_byte_of_string "module.exports = pad" |} in
  assemble "netlify-toolchain" Scripting 1000
    {| strategyUsed := GraphBuilder; outputFiles := [a; b; pad] |}
  = assemble "netlify-toolchain" Scripting 2000
      {| strategyUsed := GraphBuilder; outputFiles := [pad; a; b] |}.
Proof.
  intros a b pad.
  apply packaging_is_deterministic.
  - split; [reflexivity |]. simpl.
    symmetry. apply (Permutation_cons_append [a; b] pad).
  - simpl. repeat (apply NoDup_cons_2; [rewrite list_elem_of_In; simpl; intuition discriminate |]).
    apply NoDup_nil_2.
Defined.

End DeterminismSamples.


(** * Further properties of the code *)

(** ** Calls made by the packaging functions *)

Section PackagingCalls.
Context `{NodeCollaborators}.
Import NodeRuntime.

(** The one call of [zipFunction], by cases on the extension and on the
    bundler constant. *)
Lemma zipFunction_single_event p st :
  let config := default emptyConfig (zp_config p) in
  exists ev,
    trace (fst (zipFunction p st)) = (trace st ++ [ev])%list /\
    (zp_extension p = ".zip" /\
       ev = EvCpFile (zp_srcPath p) (join (zp_destFolder p) (zp_filename p))
     \/ zp_extension p <> ".zip" /\ ev = EvZipZisi (zisiArgs p config)
     \/ zp_extension p <> ".zip" /\ ev = EvZipEsbuild (esbuildArgs p config)).
Proof.
  intros config.
  destruct (String.eqb_spec (zp_extension p) ".zip") as [Hzip | Hext].
  - rewrite zipFunction_zip_run by exact Hzip.
    eexists. split; [| left; split; [exact Hzip | reflexivity]].
    destruct (files st !! zp_srcPath p); reflexivity.
  - destruct (zipBundler_total config p st) as [b Hb].
    rewrite (zipFunction_engine p b st Hb Hext). fold config.
    destruct (String.eqb b JS_BUNDLER_ZISI); unfold external.
    + destruct (zipZisi (zisiArgs p config) (files st)) as [fs' r].
      eexists. split; [reflexivity | right; left; split; [exact Hext | reflexivity]].
    + destruct (zipEsbuild (esbuildArgs p config) (files st)) as [fs' r].
      eexists. split; [reflexivity | right; right; split; [exact Hext | reflexivity]].
Qed.

(** X1. Whatever its parameters, [zipFunction] makes exactly one call
    among [cpFile], [zipZisi] and [zipEsbuild]: the copy when the extension
    is [.zip], and otherwise one of the two engines, with the arguments
    built from the parameters and the configuration ([{}] when there is
    none). It never calls the source lister. (The probe of the entry file,
    which [getDefaultBundler] runs when no bundler is pinned, is a read; it
    is not one of the calls counted.) *)
Theorem zipFunction_exactly_one_call p st :
  let config := default emptyConfig (zp_config p) in
  exists ev,
    trace (fst (zipFunction p st)) = (trace st ++ [ev])%list /\
    (forall a, ev <> EvSrcFiles a) /\
    (zp_extension p = ".zip" /\
       ev = EvCpFile (zp_srcPath p) (join (zp_destFolder p) (zp_filename p))
     \/ zp_extension p <> ".zip" /\ ev = EvZipZisi (zisiArgs p config)
     \/ zp_extension p <> ".zip" /\ ev = EvZipEsbuild (esbuildArgs p config)).
Proof.
  intros config.
  destruct (zipFunction_single_event p st) as (ev & Htrace & Hcases).
  exists ev. split; [exact Htrace |]. split; [| exact Hcases].
  intros a Hev.
  destruct Hcases as [[_ E] | [[_ E] | [_ E]]]; rewrite E in Hev; discriminate.
Qed.

(** X2. The exported [zipWithFunctionWithFallback] makes one call among
    [cpFile], [zipZisi] and [zipEsbuild], or two; it makes two only when
    the configuration names the composite strategy and the first attempt
    (with the delegated engine selected) threw. It never calls the source
    lister. (Probes of the entry file are reads and are not counted.) *)
Theorem fallback_at_most_two_calls p st :
  let config := default emptyConfig (zp_config p) in
  exists evs,
    trace (fst (zipWithFunctionWithFallback p st)) = (trace st ++ evs)%list /\
    Forall (fun ev => forall a, ev <> EvSrcFiles a) evs /\
    (length evs = 1 \/
     length evs = 2 /\
     nodeBundler config = Some JS_BUNDLER_ESBUILD_ZISI /\
     exists e,
       snd (zipFunction
              (withConfig p (withNodeBundler config JS_BUNDLER_ESBUILD)) st)
       = Throw e).
Proof.
  intros config.
  assert (Hnot : forall q ev,
    (zp_extension q = ".zip" /\
       ev = EvCpFile (zp_srcPath q) (join (zp_destFolder q) (zp_filename q))
     \/ zp_extension q <> ".zip" /\
        ev = EvZipZisi (zisiArgs q (default emptyConfig (zp_config q)))
     \/ zp_extension q <> ".zip" /\
        ev = EvZipEsbuild (esbuildArgs q (default emptyConfig (zp_config q)))) ->
    forall a, ev <> EvSrcFiles a).
  { intros q ev [[_ E] | [[_ E] | [_ E]]] a Hev; rewrite E in Hev; discriminate. }
  destruct (decide (nodeBundler config = Some JS_BUNDLER_ESBUILD_ZISI))
    as [Hcomposite | Hsingle].
  - rewrite fallback_composite by exact Hcomposite. fold config.
    destruct (zipFunction_single_event
                (withConfig p (withNodeBundler config JS_BUNDLER_ESBUILD)) st)
      as (ev1 & Htrace1 & Hcases1).
    destruct (zipFunction _ st) as [st1 [data | e1]] eqn:Hfirst; simpl in Htrace1.
    + exists [ev1]. split; [exact Htrace1 |].
      split; [constructor; [eapply Hnot; exact Hcases1 | constructor] |].
      left; reflexivity.
    + destruct (zipFunction_single_event
                  (withConfig p (withNodeBundler config JS_BUNDLER_ZISI)) st1)
        as (ev2 & Htrace2 & Hcases2).
      exists [ev1; ev2]. split.
      { destruct (zipFunction _ st1) as [st2 [data | e2]]; simpl in *;
          rewrite Htrace2, Htrace1, <- app_assoc; reflexivity. }
      split.
      { constructor; [eapply Hnot; exact Hcases1 |].
        constructor; [eapply Hnot; exact Hcases2 | constructor]. }
      right. split; [reflexivity |]. split; [exact Hcomposite |].
      exists e1. reflexivity.
  - rewrite fallback_not_composite by exact Hsingle. fold config.
    destruct (zipFunction_single_event (withConfig p config) st)
      as (ev & Htrace & Hcases).
    exists [ev]. split; [exact Htrace |].
    split; [constructor; [eapply Hnot; exact Hcases | constructor] |].
    left; reflexivity.
Qed.

(** X3. A pinned bundler name that is neither the Graph Builder's nor the
    composite one (the delegated engine's name, or any name the code does
    not know) sends a function that is not pre-archived to [zipEsbuild],
    once, with the configuration as it is; the outcome is returned as it
    is. *)
Theorem other_bundler_names_go_to_esbuild p b st fs' outcome :
  nodeBundler (default emptyConfig (zp_config p)) = Some b ->
  b <> EmptyString ->
  b <> JS_BUNDLER_ZISI ->
  b <> JS_BUNDLER_ESBUILD_ZISI ->
  zp_extension p <> ".zip" ->
  let config := default emptyConfig (zp_config p) in
  zipEsbuild (esbuildArgs p config) (files st) = (fs', outcome) ->
  zipWithFunctionWithFallback p st =
    ({| files := fs';
        trace := trace st ++ [EvZipEsbuild (esbuildArgs p config)] |},
     outcome).
Proof.
  intros Hpinned Hne Hzisi Hcomposite Hext config Hcall.
  transitivity (external (EvZipEsbuild (esbuildArgs p config))
                  (zipEsbuild (esbuildArgs p config)) st).
  - rewrite fallback_not_composite by (rewrite Hpinned; congruence).
    rewrite (zipFunction_engine _ b); [| now apply zipBundler_pinned | exact Hext].
    destruct (String.eqb_spec b JS_BUNDLER_ZISI) as [E | _]; [contradiction |].
    reflexivity.
  - unfold external. rewrite Hcall. reflexivity.
Qed.

(** X4. After a failed delegated engine and a successful Graph Builder, the
    result always has a [bundlerErrors] entry: it holds the [errors] of the
    first failure ([undefined] when that error has none) and replaces an
    entry of that name in the retry's result; every other entry of the
    retry's result is kept. *)
Theorem degraded_success_sets_bundlerErrors p st fs1 e1 fs2 data :
  nodeBundler (default emptyConfig (zp_config p)) = Some JS_BUNDLER_ESBUILD_ZISI ->
  zp_extension p <> ".zip" ->
  let config := default emptyConfig (zp_config p) in
  zipEsbuild (esbuildArgs p (withNodeBundler config JS_BUNDLER_ESBUILD)) (files st)
    = (fs1, Throw e1) ->
  zipZisi (zisiArgs p (withNodeBundler config JS_BUNDLER_ZISI)) fs1
    = (fs2, Ok data) ->
  exists result,
    snd (zipWithFunctionWithFallback p st) = Ok result /\
    result !! "bundlerErrors" = Some (errors e1) /\
    (forall k, k <> "bundlerErrors" -> result !! k = data !! k).
Proof.
  intros Hcomposite Hext config Hprimary Hretry.
  rewrite fallback_composite by exact Hcomposite. fold config.
  rewrite attempt_esbuild by exact Hext. unfold external at 1.
  rewrite Hprimary.
  rewrite attempt_zisi by exact Hext. unfold external. simpl.
  rewrite Hretry. simpl.
  eexists. split; [reflexivity |]. split.
  - apply lookup_insert_eq.
  - intros k Hk. now apply lookup_insert_ne.
Qed.

(** X5. A pre-archived function whose source cannot be read: the copy is
    attempted once, or twice under the composite strategy (the retry is
    another copy), no engine is called, the file system is left as it was
    and the call throws. *)
Theorem unreadable_archive_is_not_packaged p st :
  zp_extension p = ".zip" ->
  files st !! zp_srcPath p = None ->
  let copy := EvCpFile (zp_srcPath p) (join (zp_destFolder p) (zp_filename p)) in
  exists e,
    zipWithFunctionWithFallback p st =
      ({| files := files st;
          trace :=
            trace st ++
              (if decide (nodeBundler (default emptyConfig (zp_config p))
                          = Some JS_BUNDLER_ESBUILD_ZISI)
               then [copy; copy] else [copy]) |},
       Throw e).
Proof.
  intros Hzip Hsrc copy.
  destruct (decide _) as [Hcomposite | Hsingle].
  - rewrite fallback_composite by exact Hcomposite.
    rewrite zipFunction_zip_run by exact Hzip. simpl. rewrite Hsrc.
    rewrite zipFunction_zip_run by exact Hzip. simpl. rewrite Hsrc.
    eexists. rewrite <- app_assoc. reflexivity.
  - rewrite fallback_not_composite by exact Hsingle.
    rewrite zipFunction_zip_run by exact Hzip. simpl. rewrite Hsrc.
    eexists. reflexivity.
Qed.

(** X6. The result for a pre-archived function whose source can be read
    has exactly two entries, [config] and [path]. The [config] entry is the
    caller's configuration ([{}] when there is none), except under the
    composite strategy, where it is that configuration with [nodeBundler]
    replaced by the delegated engine's name. *)
Theorem prearchived_result_entries p st bytes :
  zp_extension p = ".zip" ->
  files st !! zp_srcPath p = Some bytes ->
  let config := default emptyConfig (zp_config p) in
  snd (zipWithFunctionWithFallback p st) =
    Ok {[ "config" :=
            JsConfig (if decide (nodeBundler config = Some JS_BUNDLER_ESBUILD_ZISI)
                      then withNodeBundler config JS_BUNDLER_ESBUILD
                      else config);
          "path" := JsString (join (zp_destFolder p) (zp_filename p)) ]}.
Proof.
  intros Hzip Hsrc config.
  destruct (decide _) as [Hcomposite | Hsingle].
  - rewrite fallback_composite by exact Hcomposite.
    rewrite zipFunction_zip_run by exact Hzip. simpl. rewrite Hsrc. reflexivity.
  - rewrite fallback_not_composite by exact Hsingle.
    rewrite zipFunction_zip_run by exact Hzip. simpl. rewrite Hsrc. reflexivity.
Qed.

End PackagingCalls.

Section PackagingCallsSamples.
Import NodeRuntime Samples.

(** A bundler name the code does not know: the delegated engine runs. *)
Lemma other_bundler_names_go_to_esbuild_witness :
  let p := params "src/two" "two.js" ".js" (Some (pinned "webpack")) in
  @zipWithFunctionWithFallback (engines (Ok esbuildArchive) (Ok zisiArchive)) p start
  = ({| files := disk;
        trace := [EvZipEsbuild (esbuildArgs p (pinned "webpack"))] |},
     Ok esbuildArchive).
Proof.
  intros p.
  exact (@other_bundler_names_go_to_esbuild
           (engines (Ok esbuildArchive) (Ok zisiArchive))
           p "webpack" start disk (Ok esbuildArchive)
           eq_refl ltac:(discriminate) ltac:(discriminate) ltac:(discriminate)
           ltac:(discriminate) eq_refl).
Defined.

(** The first failure has no [errors], the retry's result has a stale
    [bundlerErrors]: the entry is there and holds [undefined]. *)
Lemma degraded_success_sets_bundlerErrors_witness :
  let p := params "src/two" "two.js" ".js" (Some (pinned JS_BUNDLER_ESBUILD_ZISI)) in
  exists result,
    snd (@zipWithFunctionWithFallback
           (engines (Throw missingDependency) (Ok zisiArchiveWithErrors)) p start)
      = Ok result /\
    result !! "bundlerErrors" = Some JsUndefined /\
    (forall k, k <> "bundlerErrors" -> result !! k = zisiArchiveWithErrors !! k).
Proof.
  intros p.
  exact (@degraded_success_sets_bundlerErrors
           (engines (Throw missingDependency) (Ok zisiArchiveWithErrors))
           p start disk missingDependency disk zisiArchiveWithErrors
           eq_refl ltac:(discriminate) eq_refl eq_refl).
Defined.

(** An archive that is not on the disk, under the composite strategy. *)
Lemma unreadable_archive_is_not_packaged_witness :
  let p := params "src" "gone.zip" ".zip" (Some (pinned JS_BUNDLER_ESBUILD_ZISI)) in
  exists e,
    @zipWithFunctionWithFallback (engines (Ok esbuildArchive) (Ok zisiArchive)) p start
    = ({| files := disk;
          trace := [ EvCpFile "src/gone.zip" "dist/gone.zip";
                     EvCpFile "src/gone.zip" "dist/gone.zip" ] |},
       Throw e).
Proof.
  intros p.
  exact (@unreadable_archive_is_not_packaged
           (engines (Ok esbuildArchive) (Ok zisiArchive)) p start eq_refl eq_refl).
Defined.

(** The archive of the sample disk, under the composite strategy: the
    [config] of the result names the delegated engine. *)
Lemma prearchived_result_entries_witness :
  let p := params "src" "test.zip" ".zip" (Some (pinned JS_BUNDLER_ESBUILD_ZISI)) in
  snd (@zipWithFunctionWithFallback (engines (Ok esbuildArchive) (Ok zisiArchive)) p start)
  = Ok {[ "config" := JsConfig (pinned JS_BUNDLER_ESBUILD);
          "path" := JsString "dist/test.zip" ]}.
Proof.
  intros p.
  exact (@prearchived_result_entries
           (engines (Ok esbuildArchive) (Ok zisiArchive)) p start
           (list_byte_of_string "test") eq_refl eq_refl).
Defined.

End PackagingCallsSamples.

(** ** The bundler of the source listing *)

Section ListingBundler.
Context `{NodeCollaborators}.
Import NodeRuntime.

(** With a [config], the lister is called once with some bundler, and a
    pinned name is passed on unchanged. *)
Lemma getSrcFilesWithBundler_run_with_config sp config st :
  sp_config sp = Some config ->
  exists b,
    getSrcFilesWithBundler sp st =
      ({| files := files st;
          trace := trace st ++
                     [EvSrcFiles {| sa_parameters := sp; sa_bundler := b |}] |},
       src_files_getSrcFiles {| sa_parameters := sp; sa_bundler := b |}
         (files st)) /\
    (forall b', nodeBundler config = Some b' -> b' <> EmptyString -> b = b').
Proof.
  intros Hconfig. unfold getSrcFilesWithBundler. rewrite Hconfig.
  unfold bind, srcFilesBundler, js_or_else.
  destruct (nodeBundler config) as [b |] eqn:Hb.
  - destruct (String.eqb_spec b EmptyString) as [-> | Hne].
    + rewrite getDefaultBundler_run. eexists. split; [reflexivity |].
      intros b' [= <-] Hb'. contradiction.
    + exists b. split; [reflexivity |]. now intros b' [= <-] _.
  - rewrite getDefaultBundler_run. eexists. split; [reflexivity |].
    intros b' Hb'. discriminate.
Qed.

(** X7. For one function (the same extension on both paths) and one
    configuration, the source listing and the packaging use the same
    bundler exactly when a bundler is pinned, or the extension is [.ts], or
    the ES-module probe answers for the entry file as it does for no file
    at all. *)
Theorem bundlers_agree_iff config p sp st :
  sp_extension sp = zp_extension p ->
  snd (srcFilesBundler config sp st) = snd (zipBundler config p st) <->
  (exists b, nodeBundler config = Some b /\ b <> EmptyString) \/
  zp_extension p = ".ts" \/
  detectEsModule (files st) (Some (zp_mainFile p))
    = detectEsModule (files st) None.
Proof.
  intros Hext.
  destruct (nodeBundler config) as [b |] eqn:Hb.
  - destruct (String.eqb_spec b EmptyString) as [-> | Hne].
    + rewrite srcFilesBundler_unpinned, zipBundler_unpinned by (right; exact Hb).
      rewrite Hext. simpl.
      destruct (String.eqb_spec (zp_extension p) ".ts") as [Hts | Hts]; simpl.
      * split; auto.
      * destruct (detectEsModule (files st) (Some (zp_mainFile p))),
                 (detectEsModule (files st) None);
          split; intros Hyp; try reflexivity; try discriminate; auto;
          destruct Hyp as [(b' & [= <-] & Hb') | [Hyp | Hyp]];
          congruence.
    + split; [intros _; left; eauto |].
      intros _. unfold srcFilesBundler, zipBundler. rewrite Hb.
      now rewrite !js_or_else_truthy.
  - rewrite srcFilesBundler_unpinned, zipBundler_unpinned by (left; exact Hb).
    rewrite Hext. simpl.
    destruct (String.eqb_spec (zp_extension p) ".ts") as [Hts | Hts]; simpl.
    + split; auto.
    + destruct (detectEsModule (files st) (Some (zp_mainFile p))),
               (detectEsModule (files st) None);
        split; intros Hyp; try reflexivity; try discriminate; auto;
        destruct Hyp as [(b' & Hb' & _) | [Hyp | Hyp]];
        congruence.
Qed.

(** X8. [getSrcFilesWithBundler] throws, without calling anything, when its
    parameters have no [config]. Otherwise it calls the source lister
    exactly once, leaves the file system as it was and returns the lister's
    outcome as it is; the bundler it passes is the pinned name unchanged
    (the composite name included) or, with none pinned, one of the two
    engines' names. *)
Theorem getSrcFilesWithBundler_calls_lister_once sp st :
  match sp_config sp with
  | None => exists e, getSrcFilesWithBundler sp st = (st, Throw e)
  | Some config =>
      exists b,
        getSrcFilesWithBundler sp st =
          ({| files := files st;
              trace := trace st ++
                         [EvSrcFiles {| sa_parameters := sp; sa_bundler := b |}] |},
           src_files_getSrcFiles {| sa_parameters := sp; sa_bundler := b |}
             (files st)) /\
        (forall b', nodeBundler config = Some b' -> b' <> EmptyString -> b = b') /\
        (nodeBundler config = None \/ nodeBundler config = Some EmptyString ->
         b = JS_BUNDLER_ESBUILD \/ b = JS_BUNDLER_ZISI)
  end.
Proof.
  unfold getSrcFilesWithBundler.
  destruct (sp_config sp) as [config |]; [| eexists; reflexivity].
  destruct (nodeBundler config) as [b |] eqn:Hb.
  - destruct (String.eqb_spec b EmptyString) as [-> | Hne].
    + unfold bind. rewrite srcFilesBundler_unpinned by (right; exact Hb).
      eexists. split; [reflexivity |]. split.
      * intros b' [= <-] Hb'. contradiction.
      * intros _.
        destruct (String.eqb (sp_extension sp) ".ts" || detectEsModule (files st) None);
          auto.
    + unfold bind, srcFilesBundler. rewrite Hb, js_or_else_truthy by exact Hne.
      exists b. split; [reflexivity |]. split.
      * now intros b' [= <-] _.
      * intros [Hyp | Hyp]; [discriminate | congruence].
  - unfold bind. rewrite srcFilesBundler_unpinned by (left; exact Hb).
    eexists. split; [reflexivity |]. split.
    + intros b' Hb'. discriminate.
    + intros _.
      destruct (String.eqb (sp_extension sp) ".ts" || detectEsModule (files st) None);
        auto.
Qed.

(** X9. Through [main.ts], a function of the script runtime that is not
    pre-archived has its source files resolved by exactly one call of the
    source lister, with the function's own fields and the listing options
    as parameters; the configuration is always passed, so the failure for
    a missing [config] cannot happen; the lister's outcome is returned as
    it is and the file system is left as it was. *)
Theorem script_function_sources_come_from_lister func basePath featureFlags st :
  fn_runtime func = jsRuntime ->
  fn_extension func <> ".zip" ->
  exists b,
    let args :=
      {| sa_parameters :=
           {| sp_basePath := basePath;
              sp_config := Some (fn_config func);
              sp_extension := fn_extension func;
              sp_featureFlags := featureFlags;
              sp_filename := fn_filename func;
              sp_mainFile := fn_mainFile func;
              sp_name := fn_name func;
              sp_runtimeName := RUNTIME_JS;
              sp_srcDir := fn_srcDir func;
              sp_srcPath := fn_srcPath func;
              sp_stat := fn_stat func |};
         sa_bundler := b |} in
    Main.getSrcFiles func basePath featureFlags st =
      ({| files := files st; trace := trace st ++ [EvSrcFiles args] |},
       src_files_getSrcFiles args (files st)) /\
    (forall b', nodeBundler (fn_config func) = Some b' -> b' <> EmptyString ->
                b = b').
Proof.
  intros Hruntime Hext. unfold Main.getSrcFiles. rewrite Hruntime. simpl.
  destruct (String.eqb_spec (fn_extension func) ".zip") as [E | _];
    [contradiction |].
  pose proof (getSrcFilesWithBundler_run_with_config
                {| sp_basePath := basePath;
                   sp_config := Some (fn_config func);
                   sp_extension := fn_extension func;
                   sp_featureFlags := featureFlags;
                   sp_filename := fn_filename func;
                   sp_mainFile := fn_mainFile func;
                   sp_name := fn_name func;
                   sp_runtimeName := RUNTIME_JS;
                   sp_srcDir := fn_srcDir func;
                   sp_srcPath := fn_srcPath func;
                   sp_stat := fn_stat func |}
                (fn_config func) st eq_refl) as (b & Hrun & Hpinned).
  exists b. split; [exact Hrun | exact Hpinned].
Qed.

End ListingBundler.

Section ListingBundlerSamples.
Import NodeRuntime Samples.

(** A script entry file without ES-module syntax, no bundler pinned: the
    probe says no for the file and for no file, the two paths agree. *)
Lemma bundlers_agree_iff_witness :
  let collaborators := engines (Ok esbuildArchive) (Ok zisiArchive) in
  let p := params "src/two" "two.js" ".js" (Some emptyConfig) in
  let sp := listing "src/two" "two.js" ".js" emptyConfig in
  snd (@srcFilesBundler collaborators emptyConfig sp start)
    = snd (@zipBundler collaborators emptyConfig p start).
Proof.
  intros collaborators p sp.
  apply (@bundlers_agree_iff collaborators emptyConfig p sp start eq_refl).
  right. right. vm_compute. reflexivity.
Defined.

(** The script function of the sample folder, with the composite strategy
    configured: the lister is asked once, for the composite name. *)
Lemma script_function_sources_come_from_lister_witness :
  let collaborators := engines (Ok esbuildArchive) (Ok zisiArchive) in
  let f := func (@jsRuntime collaborators) "src/two" "two.js" ".js"
             (pinned JS_BUNDLER_ESBUILD_ZISI) in
  Main.getSrcFiles f None [] start =
    ({| files := disk;
        trace :=
          [EvSrcFiles
             {| sa_parameters :=
                  listing "src/two" "two.js" ".js" (pinned JS_BUNDLER_ESBUILD_ZISI);
                sa_bundler := JS_BUNDLER_ESBUILD_ZISI |}] |},
     Ok ["src/two/two.js"]).
Proof.
  intros collaborators f.
  destruct (@script_function_sources_come_from_lister collaborators f None [] start)
    as (b & Hrun & Hpinned); [reflexivity | discriminate |].
  rewrite Hrun.
  rewrite (Hpinned JS_BUNDLER_ESBUILD_ZISI eq_refl ltac:(discriminate)).
  reflexivity.
Defined.

End ListingBundlerSamples.

(** ** Failures and order of the listing *)

Section ListingOrder.
Context `{MainCollaborators}.
Import Main.

(** X10. When the listing of the function directories rejects, or the
    discovery of the functions does, [listFunctions] and
    [listFunctionsFiles] throw that same error, call no source lister and
    leave the state as it was. *)
Theorem listing_rethrows_discovery_failure
    relativeSrcFolders basePath config inputFeatureFlags st e :
  listFunctionsDirectories
    (resolveFunctionsDirectories relativeSrcFolders) (files st) = Throw e \/
  (exists paths,
      listFunctionsDirectories
        (resolveFunctionsDirectories relativeSrcFolders) (files st) = Ok paths /\
      getFunctionsFromPaths paths config (getFlags inputFeatureFlags) (files st)
        = Throw e) ->
  listFunctions relativeSrcFolders inputFeatureFlags config st = (st, Throw e) /\
  listFunctionsFiles relativeSrcFolders basePath config inputFeatureFlags st
    = (st, Throw e).
Proof.
  unfold listFunctions, listFunctionsFiles, bind, reading.
  intros [Hdirs | (paths & Hdirs & Hdiscovery)].
  - rewrite Hdirs. split; reflexivity.
  - rewrite Hdirs, Hdiscovery. split; reflexivity.
Qed.

(** [Promise.all] over functions that resolve without touching the state. *)
Lemma promise_all_pure {A B} (f : A -> M B) (g : A -> B) l st :
  Forall (fun a => forall s, f a s = (s, Ok (g a))) l ->
  promise_all f l st = (st, Ok (map g l)).
Proof.
  induction 1 as [| a l Ha _ IH]; simpl; [reflexivity |].
  rewrite Ha, IH. reflexivity.
Qed.

Lemma concat_singletons {A B} (g : A -> B) (l : list A) :
  concat (map (fun a => [g a]) l) = map g l.
Proof. induction l as [| a l IH]; simpl; [reflexivity | now rewrite IH]. Qed.

(** X11. In a folder where every discovered function is pre-archived or of
    a runtime without a source lister, [listFunctionsFiles] returns one
    record per function, in the order of discovery, whose [srcFile] is the
    function's source path and whose extension is the extension of that
    path; nothing is called and the state is left as it was. *)
Theorem listFunctionsFiles_without_listers
    relativeSrcFolders basePath config inputFeatureFlags st paths functions :
  listFunctionsDirectories
    (resolveFunctionsDirectories relativeSrcFolders) (files st) = Ok paths ->
  getFunctionsFromPaths paths config (getFlags inputFeatureFlags) (files st)
    = Ok functions ->
  Forall (fun entry : string * FunctionSource =>
            fn_extension (snd entry) = ".zip" \/
            rt_getSrcFiles (fn_runtime (snd entry)) = None)
         functions ->
  listFunctionsFiles relativeSrcFolders basePath config inputFeatureFlags st =
    (st,
     Ok (map (fun entry : string * FunctionSource =>
                {| lff_srcFile := fn_srcPath (snd entry);
                   lff_name := fn_name (snd entry);
                   lff_mainFile := fn_mainFile (snd entry);
                   lff_runtime := rt_name (fn_runtime (snd entry));
                   lff_extension := extname (fn_srcPath (snd entry)) |})
             functions)).
Proof.
  intros Hdirs Hdiscovery Hplain.
  unfold listFunctionsFiles, bind at 1, reading. rewrite Hdirs.
  unfold bind at 1. rewrite Hdiscovery.
  unfold bind.
  rewrite (promise_all_pure _
             (fun func =>
                [ {| lff_srcFile := fn_srcPath func;
                     lff_name := fn_name func;
                     lff_mainFile := fn_mainFile func;
                     lff_runtime := rt_name (fn_runtime func);
                     lff_extension := extname (fn_srcPath func) |} ])).
  - unfold ret. rewrite concat_singletons, map_map. reflexivity.
  - apply Forall_forall. intros func Hin s.
    apply list_elem_of_In, in_map_iff in Hin as (entry & <- & Hin).
    rewrite Forall_forall in Hplain.
    specialize (Hplain entry (proj2 (list_elem_of_In _ _) Hin)).
    unfold getListedFunctionFiles, bind, getSrcFiles.
    destruct Hplain as [Hzip | Hnone].
    + rewrite Hzip. reflexivity.
    + rewrite Hnone.
      destruct (String.eqb (fn_extension (snd entry)) ".zip"); reflexivity.
Qed.

End ListingOrder.

Section ListingGroups.
Context `{MainCollaborators}.
Import Main.

(** X12. The [srcFile] column of the records of [listFunctionsFiles] is
    the concatenation, in the order of discovery, of the lists of source
    files that [getSrcFiles] returned in this run, one list for each
    discovered function: nothing is sorted, merged or dropped, so a file
    resolved twice is listed twice. *)
Theorem listFunctionsFiles_grouped_in_order
    relativeSrcFolders basePath config inputFeatureFlags st st' records :
  listFunctionsFiles relativeSrcFolders basePath config inputFeatureFlags st
    = (st', Ok records) ->
  exists paths functions perFunction,
    listFunctionsDirectories
      (resolveFunctionsDirectories relativeSrcFolders) (files st) = Ok paths /\
    getFunctionsFromPaths paths config (getFlags inputFeatureFlags) (files st)
      = Ok functions /\
    promise_all
      (fun func => getSrcFiles func basePath (getFlags inputFeatureFlags))
      (map snd functions) st
      = (st', Ok perFunction) /\
    length perFunction = length functions /\
    map lff_srcFile records = concat perFunction.
Proof.
  unfold listFunctionsFiles, bind, reading, ret.
  destruct (listFunctionsDirectories _ (files st)) as [paths | e] eqn:Hdirs;
    [| discriminate].
  destruct (getFunctionsFromPaths paths _ _ (files st))
    as [functions | e] eqn:Hdiscovery; [| discriminate].
  destruct (promise_all _ (map snd functions) st)
    as [st1 [groups | e]] eqn:Hall; [| discriminate].
  intros [= <- <-].
  apply promise_all_resolved in Hall as (perFunction & Hall & ->).
  exists paths, functions, perFunction.
  split; [first [reflexivity | assumption] |].
  split; [first [reflexivity | assumption] |].
  split; [exact Hall |].
  split; [rewrite (promise_all_length _ _ _ _ _ Hall); apply length_map |].
  apply promise_all_results in Hall.
  induction Hall as [| func srcFiles funcs rest _ _ IH]; simpl;
    [reflexivity |].
  rewrite map_app, map_map, IH. simpl. now rewrite map_id.
Qed.

(** X13. Listing the same folders from the same state with both entry
    points: every record of [listFunctionsFiles] has the name, main file
    and runtime name of a record of [listFunctions]. *)
Theorem listed_files_belong_to_listed_functions
    relativeSrcFolders basePath config inputFeatureFlags st st1 st2
    listed records :
  listFunctions relativeSrcFolders inputFeatureFlags config st
    = (st1, Ok listed) ->
  listFunctionsFiles relativeSrcFolders basePath config inputFeatureFlags st
    = (st2, Ok records) ->
  Forall (fun r =>
            exists l,
              In l listed /\
              lf_name l = lff_name r /\
              lf_mainFile l = lff_mainFile r /\
              lf_runtime l = lff_runtime r)
         records.
Proof.
  unfold listFunctions, listFunctionsFiles, bind, reading, ret.
  destruct (listFunctionsDirectories _ (files st)) as [paths | e];
    [| discriminate].
  destruct (getFunctionsFromPaths paths _ _ (files st))
    as [functions | e]; [| discriminate].
  intros [= _ <-].
  destruct (promise_all _ (map snd functions) st)
    as [st' [groups | e]] eqn:Hall; [| discriminate].
  intros [= _ <-].
  apply promise_all_results in Hall.
  induction Hall as [| func recs funcs rest (s & s' & Hone) _ IH]; simpl.
  - constructor.
  - apply Forall_app. split.
    + apply getListedFunctionFiles_records in Hone.
      eapply Forall_impl; [exact Hone |].
      intros r (_ & Hname & Hmain & Hruntime).
      exists (getListedFunction func). simpl. auto.
    + eapply Forall_impl; [exact IH |].
      intros r (l & Hin & Hrest). exists l. simpl. auto.
Qed.

End ListingGroups.

Section ListingOrderSamples.
Import Main Samples.

(** The folder that does not exist. *)
Lemma listing_rethrows_discovery_failure_witness :
  @listFunctions missingFolder (inl "src") None None start
    = (start, Throw folderMissing) /\
  @listFunctionsFiles missingFolder (inl "src") None None None start
    = (start, Throw folderMissing).
Proof.
  apply (@listing_rethrows_discovery_failure missingFolder).
  left. reflexivity.
Defined.

(** The folder with an archive and a binary. *)
Lemma listFunctionsFiles_without_listers_witness :
  let collaborators :=
    @plainDiscovery (engines (Ok esbuildArchive) (Ok zisiArchive)) in
  @listFunctionsFiles collaborators (inl "src") None None None start =
    (start,
     Ok [ {| lff_srcFile := "src/test.zip"; lff_name := "test.zip";
             lff_mainFile := "src/test.zip"; lff_runtime := "js";
             lff_extension := ".zip" |};
          {| lff_srcFile := "src/test"; lff_name := "test";
             lff_mainFile := "src/test"; lff_runtime := "go";
             lff_extension := EmptyString |} ]).
Proof.
  intros collaborators.
  apply (@listFunctionsFiles_without_listers collaborators
           (inl "src") None None None start _ _ eq_refl eq_refl).
  constructor; [left; reflexivity |].
  constructor; [right; reflexivity | constructor].
Defined.

(** The sample folder: four records in three groups, one per function. *)
Lemma listFunctionsFiles_grouped_in_order_witness :
  let collaborators := @discovery (engines (Ok esbuildArchive) (Ok zisiArchive)) in
  exists records perFunction,
    snd (@listFunctionsFiles collaborators (inl "src") None None None start)
      = Ok records /\
    map lff_srcFile records = concat perFunction /\
    length records = 4 /\
    length perFunction = 3.
Proof.
  intros collaborators.
  destruct (@listFunctionsFiles collaborators (inl "src") None None None start)
    as [st' [records | e]] eqn:Hrun; [| vm_compute in Hrun; discriminate].
  destruct (@listFunctionsFiles_grouped_in_order collaborators _ _ _ _ _ _ _ Hrun)
    as (paths & functions & perFunction & _ & Hdiscovery & _ & Hlength & Hfiles).
  exists records, perFunction.
  split; [reflexivity |]. split; [exact Hfiles |]. split.
  - vm_compute in Hrun. injection Hrun as _ <-. reflexivity.
  - rewrite Hlength. injection Hdiscovery as <-. reflexivity.
Defined.

(** The sample folder, listed both ways. *)
Lemma listed_files_belong_to_listed_functions_witness :
  let collaborators := @discovery (engines (Ok esbuildArchive) (Ok zisiArchive)) in
  exists listed records,
    snd (@listFunctions collaborators (inl "src") None None start) = Ok listed /\
    snd (@listFunctionsFiles collaborators (inl "src") None None None start)
      = Ok records /\
    length records = 4 /\
    Forall (fun r =>
              exists l,
                In l listed /\
                lf_name l = lff_name r /\
                lf_mainFile l = lff_mainFile r /\
                lf_runtime l = lff_runtime r)
           records.
Proof.
  intros collaborators.
  destruct (@listFunctions collaborators (inl "src") None None start)
    as [st1 [listed | e]] eqn:Hlisted; [| vm_compute in Hlisted; discriminate].
  destruct (@listFunctionsFiles collaborators (inl "src") None None None start)
    as [st2 [records | e]] eqn:Hrecords; [| vm_compute in Hrecords; discriminate].
  exists listed, records.
  split; [reflexivity |]. split; [reflexivity |]. split.
  - vm_compute in Hrecords. injection Hrecords as _ <-. reflexivity.
  - exact (@listed_files_belong_to_listed_functions collaborators
             _ _ _ _ _ _ _ _ _ Hlisted Hrecords).
Defined.

End ListingOrderSamples.

(** ** The default engine is not retried *)

Section DefaultWithoutRetry.
Context `{NodeCollaborators}.
Import NodeRuntime.

(** X14. With no bundler pinned ([nodeBundler] missing or empty), the
    exported function sends a function that is not pre-archived to the
    engine of the default selection, once, and returns that engine's
    outcome as it is: a failure of the default engine is thrown as it is
    and the other engine is not tried. *)
Theorem default_engine_is_not_retried p st :
  nodeBundler (default emptyConfig (zp_config p)) = None \/
  nodeBundler (default emptyConfig (zp_config p)) = Some EmptyString ->
  zp_extension p <> ".zip" ->
  let config := default emptyConfig (zp_config p) in
  (String.eqb (zp_extension p) ".ts"
   || detectEsModule (files st) (Some (zp_mainFile p)) = true ->
   forall fs' outcome,
     zipEsbuild (esbuildArgs p config) (files st) = (fs', outcome) ->
     zipWithFunctionWithFallback p st =
       ({| files := fs';
           trace := trace st ++ [EvZipEsbuild (esbuildArgs p config)] |},
        outcome)) /\
  (String.eqb (zp_extension p) ".ts"
   || detectEsModule (files st) (Some (zp_mainFile p)) = false ->
   forall fs' outcome,
     zipZisi (zisiArgs p config) (files st) = (fs', outcome) ->
     zipWithFunctionWithFallback p st =
       ({| files := fs';
           trace := trace st ++ [EvZipZisi (zisiArgs p config)] |},
        outcome)).
Proof.
  intros Hunpinned Hext config.
  assert (Hsingle : nodeBundler config <> Some JS_BUNDLER_ESBUILD_ZISI)
    by (destruct Hunpinned as [E | E]; unfold config; rewrite E; discriminate).
  assert (Hrun : zipWithFunctionWithFallback p st =
    if String.eqb (zp_extension p) ".ts"
       || detectEsModule (files st) (Some (zp_mainFile p))
    then external (EvZipEsbuild (esbuildArgs p config))
           (zipEsbuild (esbuildArgs p config)) st
    else external (EvZipZisi (zisiArgs p config))
           (zipZisi (zisiArgs p config)) st).
  { rewrite fallback_not_composite by exact Hsingle. fold config.
    rewrite (zipFunction_engine (withConfig p config) _ st
               (zipBundler_unpinned config (withConfig p config) st Hunpinned)
               Hext).
    simpl.
    destruct (String.eqb (zp_extension p) ".ts"
              || detectEsModule (files st) (Some (zp_mainFile p)));
      reflexivity. }
  split; intros Hsel fs' outcome Hcall; rewrite Hrun, Hsel;
    unfold external; rewrite Hcall; reflexivity.
Qed.

End DefaultWithoutRetry.

Section DefaultWithoutRetrySamples.
Import NodeRuntime Samples.

(** An ES-module entry file, no bundler pinned, a delegated engine that
    fails and a Graph Builder that would succeed: the failure is thrown. *)
Lemma default_engine_is_not_retried_witness :
  let collaborators := engines (Throw buildFailed) (Ok zisiArchive) in
  let p := params "src" "esm.js" ".js" None in
  @zipWithFunctionWithFallback collaborators p start =
    ({| files := disk;
        trace := [EvZipEsbuild (esbuildArgs p emptyConfig)] |},
     Throw buildFailed).
Proof.
  intros collaborators p.
  destruct (@default_engine_is_not_retried collaborators p start)
    as [Hesbuild _]; [left; reflexivity | discriminate |].
  exact (Hesbuild eq_refl disk (Throw buildFailed) eq_refl).
Defined.

End DefaultWithoutRetrySamples.
